(** * The metrics-logging coordinator of pytorch_lightning

    A shallow embedding of
    [pytorch_lightning/trainer/connectors/logger_connector.py]:
    the stage lookup, the split-index scope, the three metric dictionaries
    ([callback_metrics], [logged_metrics], [progress_bar_metrics]) and the
    evaluation result list, with Python's exceptions and in-place updates
    written out as a state-and-exception monad. *)

From Stdlib Require Import ZArith QArith_base Ascii String List DecimalString DecimalNat.
From stdpp Require Import gmap strings list fin_maps.

Local Open Scope string_scope.
Local Open Scope list_scope.
Local Open Scope Z_scope.

(** ** Python values carried by the metric dictionaries *)

(** A [torch.Tensor], as far as the connector looks at it: its shape and
    its entries. *)
Inductive tensor := Tensor (shape : list nat) (data : list Q).

(** A metric value: [None], a Python float, a Python int or a tensor. *)
Inductive value :=
| NoneVal
| Num (x : Q)
| Int (n : Z)
| Tens (t : tensor).

(** A Python [dict] from metric names to values. *)
Abbreviation dict := (gmap string value).

(** [d.update(other)]: the entries of [other] win. *)
Definition update (d other : dict) : dict := other ∪ d.

(** [copy.deepcopy] of a dictionary of immutable values. *)
Definition deepcopy (d : dict) : dict := d.

(** [list(d.keys())] *)
Definition keys (d : dict) : list string := (map_to_list d).*1.

(** [dict(ChainMap( *maps ))]: a key is looked up in the maps from the first
    to the last, so the first map that has it gives the value. *)
Fixpoint dict_ChainMap (maps : list dict) : dict :=
  match maps with
  | [] => ∅
  | m :: rest => m ∪ dict_ChainMap rest
  end.

(** ** Python strings

    A Python [str] is modelled by the [string] of its code points, each
    below 256; a [str] with a character from U+0100 on has no counterpart
    here, and no statement below speaks of one. *)

Module Str.

(** [prefix p s]: [s.startswith(p)] *)
Fixpoint startswith (p s : string) : bool :=
  match p, s with
  | EmptyString, _ => true
  | String a p', String b s' => if Ascii.eqb a b then startswith p' s' else false
  | String _ _, EmptyString => false
  end.

(** [sub in s] *)
Fixpoint contains (sub s : string) : bool :=
  if startswith sub s then true
  else match s with
       | EmptyString => false
       | String _ s' => contains sub s'
       end.

(** [s.split(sep)] for a one-character separator. *)
Fixpoint split (sep : ascii) (s : string) : list string :=
  match s with
  | EmptyString => [EmptyString]
  | String a s' =>
      if Ascii.eqb a sep then EmptyString :: split sep s'
      else match split sep s' with
           | h :: t => String a h :: t
           | [] => [String a EmptyString]
           end
  end.

(** [l[-1]] on a list of strings that is not empty. *)
Definition last (l : list string) : string := List.last l EmptyString.

(** [str(n)] for a natural number. *)
Definition of_nat (n : nat) : string := NilEmpty.string_of_uint (Nat.to_uint n).

(** [int(s)] in base ten, as Python 3.6 and later read a [str]; Python
    raises [ValueError] where this gives [None].

    The blanks [int] skips before and after the number are the tab, the
    line feed, the vertical tab, the form feed, the carriage return and
    the space, and of the characters from U+0080 to U+00FF the two white
    spaces U+0085 and U+00A0.  The separators U+001C to U+001F are no
    blanks for [int].  No character below U+0100 other than [0] to [9] is
    a decimal digit. *)
Definition is_blank (a : ascii) : bool :=
  match a with
  | " "%char | "009"%char | "010"%char | "011"%char | "012"%char | "013"%char
  | "133"%char | "160"%char => true
  | _ => false
  end.

Fixpoint lstrip (s : string) : string :=
  match s with
  | String a s' => if is_blank a then lstrip s' else s
  | EmptyString => EmptyString
  end.

Fixpoint rstrip (s : string) : string :=
  match s with
  | String a s' =>
      match rstrip s' with
      | EmptyString => if is_blank a then EmptyString else String a EmptyString
      | r => String a r
      end
  | EmptyString => EmptyString
  end.

(** The digits of a number without the underscores that group them.  An
    underscore stands between two digits: none at the start, none at the
    end, no two in a row.  [after_digit] tells whether the character
    before was no underscore. *)
Fixpoint ungroup (after_digit : bool) (s : string) : option string :=
  match s with
  | EmptyString => if after_digit then Some EmptyString else None
  | String "_" s' => if after_digit then ungroup false s' else None
  | String a s' => String a <$> ungroup true s'
  end.

(** The value of a digit, by its code: the digits are the characters
    from code 48 to code 57. *)
Definition digit_value (a : ascii) : option Z :=
  let code := Z.of_nat (nat_of_ascii a) in
  if (48 <=? code) && (code <=? 57) then Some (code - 48) else None.

(** The number that the digits of [s] write after those read so far,
    which gave [acc]. *)
Fixpoint decimal (acc : Z) (s : string) : option Z :=
  match s with
  | EmptyString => Some acc
  | String a s' => v ← digit_value a; decimal (10 * acc + v) s'
  end.

(** One digit at least, and nothing but digits and their underscores. *)
Definition digits (s : string) : option Z :=
  d ← ungroup false s; decimal 0 d.

(** A sign may stand right before the digits. *)
Definition int (s : string) : option Z :=
  match rstrip (lstrip s) with
  | String "-" d => Z.opp <$> digits d
  | String "+" d => digits d
  | d => digits d
  end.

End Str.


(** ** Exceptions, state and the monad of the connector's methods *)

Inductive exn :=
| NameError (name : string)
| UnboundLocalError (name : string)
| AttributeError (attr : string)
| KeyError (key : string)
| IndexError
| TypeError
| ValueError
| MisconfigurationException (msg : string).

(** An attribute that holds [None] or an integer, or was never assigned. *)
Inductive attr :=
| Unset
| IsNone
| IsInt (i : Z).

(** One call of the backend's [agg_and_log_metrics(scalar_metrics, step)]. *)
Record backend_call := BackendCall {
  call_metrics : dict;
  call_step : value
}.

(** A structured [Result] ([EvalResult] when [is_eval]), a [dict] subclass
    of [pytorch_lightning.core.step_result], through what the connector
    reads of it: the number of its keys, whether ['extra'] is one of them,
    and what its metric getters return ([_no_forked] with
    [include_forked_originals=False]).  [r_extra] is the mapping under
    ['extra'] when [r_has_extra]; without that key the attribute [extra]
    reads as [None], as does [minimize] without its key. *)
Record Result := {
  is_eval : bool;
  r_len : nat;
  r_has_extra : bool;
  r_callback_metrics : dict;
  r_batch_log_metrics_no_forked : dict;
  r_batch_pbar_metrics_no_forked : dict;
  r_epoch_log_metrics : dict;
  r_epoch_pbar_metrics : dict;
  r_forked_metrics : dict;
  r_extra : dict;
  r_minimize : value
}.

(** The connector and the fields of its trainer that it reads or writes.
    [cached_split_idx] is [_cached_results[stage].split_idx] and
    [cached__split_idx] is [_cached_results[stage]._split_idx] (the one
    [__init__] sets to [None] and [cache_result] reads);
    [manager_split_idx] is [_split_idx_manager[stage].split_idx].  The
    three maps are keyed by the stages the dictionaries were built with.
    The histories of the trainer's [dev_debugger] and what is printed are
    not part of the state. *)
Record state := State {
  callback_metrics : dict;
  logged_metrics : dict;
  progress_bar_metrics : dict;
  eval_loop_results : list dict;
  _current_stage : option string;
  cached_split_idx : gmap string attr;
  cached__split_idx : gmap string attr;
  manager_split_idx : gmap string attr;
  (* trainer *)
  trainer_split_idx : attr;
  testing : bool;
  running_sanity_check : bool;
  is_global_zero : bool;
  verbose_test : bool;
  on_gpu : bool;
  log_gpu_memory : bool;
  has_logger : bool;
  current_epoch : Z;
  global_step : Z;
  dev_debugger_enabled : bool;
  step_metrics : list (list Result);
  (* what the logger backend has received *)
  backend_calls : list backend_call;
  backend_saves : nat
}.

Definition set_callback_metrics (m : dict) (s : state) : state :=
  State m (logged_metrics s) (progress_bar_metrics s) (eval_loop_results s)
    (_current_stage s) (cached_split_idx s) (cached__split_idx s) (manager_split_idx s)
    (trainer_split_idx s) (testing s) (running_sanity_check s) (is_global_zero s)
    (verbose_test s) (on_gpu s) (log_gpu_memory s) (has_logger s) (current_epoch s)
    (global_step s) (dev_debugger_enabled s) (step_metrics s) (backend_calls s)
    (backend_saves s).

Definition set_logged_metrics (m : dict) (s : state) : state :=
  State (callback_metrics s) m (progress_bar_metrics s) (eval_loop_results s)
    (_current_stage s) (cached_split_idx s) (cached__split_idx s) (manager_split_idx s)
    (trainer_split_idx s) (testing s) (running_sanity_check s) (is_global_zero s)
    (verbose_test s) (on_gpu s) (log_gpu_memory s) (has_logger s) (current_epoch s)
    (global_step s) (dev_debugger_enabled s) (step_metrics s) (backend_calls s)
    (backend_saves s).

Definition set_progress_bar_metrics (m : dict) (s : state) : state :=
  State (callback_metrics s) (logged_metrics s) m (eval_loop_results s)
    (_current_stage s) (cached_split_idx s) (cached__split_idx s) (manager_split_idx s)
    (trainer_split_idx s) (testing s) (running_sanity_check s) (is_global_zero s)
    (verbose_test s) (on_gpu s) (log_gpu_memory s) (has_logger s) (current_epoch s)
    (global_step s) (dev_debugger_enabled s) (step_metrics s) (backend_calls s)
    (backend_saves s).

Definition set_eval_loop_results (l : list dict) (s : state) : state :=
  State (callback_metrics s) (logged_metrics s) (progress_bar_metrics s) l
    (_current_stage s) (cached_split_idx s) (cached__split_idx s) (manager_split_idx s)
    (trainer_split_idx s) (testing s) (running_sanity_check s) (is_global_zero s)
    (verbose_test s) (on_gpu s) (log_gpu_memory s) (has_logger s) (current_epoch s)
    (global_step s) (dev_debugger_enabled s) (step_metrics s) (backend_calls s)
    (backend_saves s).

Definition set__current_stage (c : option string) (s : state) : state :=
  State (callback_metrics s) (logged_metrics s) (progress_bar_metrics s)
    (eval_loop_results s) c (cached_split_idx s) (cached__split_idx s)
    (manager_split_idx s)
    (trainer_split_idx s) (testing s) (running_sanity_check s) (is_global_zero s)
    (verbose_test s) (on_gpu s) (log_gpu_memory s) (has_logger s) (current_epoch s)
    (global_step s) (dev_debugger_enabled s) (step_metrics s) (backend_calls s)
    (backend_saves s).

Definition set_cached_split_idx (c : gmap string attr) (s : state) : state :=
  State (callback_metrics s) (logged_metrics s) (progress_bar_metrics s)
    (eval_loop_results s) (_current_stage s) c (cached__split_idx s)
    (manager_split_idx s)
    (trainer_split_idx s) (testing s) (running_sanity_check s) (is_global_zero s)
    (verbose_test s) (on_gpu s) (log_gpu_memory s) (has_logger s) (current_epoch s)
    (global_step s) (dev_debugger_enabled s) (step_metrics s) (backend_calls s)
    (backend_saves s).

Definition set_manager_split_idx (c : gmap string attr) (s : state) : state :=
  State (callback_metrics s) (logged_metrics s) (progress_bar_metrics s)
    (eval_loop_results s) (_current_stage s) (cached_split_idx s)
    (cached__split_idx s) c
    (trainer_split_idx s) (testing s) (running_sanity_check s) (is_global_zero s)
    (verbose_test s) (on_gpu s) (log_gpu_memory s) (has_logger s) (current_epoch s)
    (global_step s) (dev_debugger_enabled s) (step_metrics s) (backend_calls s)
    (backend_saves s).

Definition set_trainer_split_idx (a : attr) (s : state) : state :=
  State (callback_metrics s) (logged_metrics s) (progress_bar_metrics s)
    (eval_loop_results s) (_current_stage s) (cached_split_idx s)
    (cached__split_idx s) (manager_split_idx s)
    a (testing s) (running_sanity_check s) (is_global_zero s)
    (verbose_test s) (on_gpu s) (log_gpu_memory s) (has_logger s) (current_epoch s)
    (global_step s) (dev_debugger_enabled s) (step_metrics s) (backend_calls s)
    (backend_saves s).

Definition set_step_metrics (l : list (list Result)) (s : state) : state :=
  State (callback_metrics s) (logged_metrics s) (progress_bar_metrics s)
    (eval_loop_results s) (_current_stage s) (cached_split_idx s)
    (cached__split_idx s) (manager_split_idx s)
    (trainer_split_idx s) (testing s) (running_sanity_check s) (is_global_zero s)
    (verbose_test s) (on_gpu s) (log_gpu_memory s) (has_logger s) (current_epoch s)
    (global_step s) (dev_debugger_enabled s) l (backend_calls s)
    (backend_saves s).

Definition set_backend (calls : list backend_call) (saves : nat) (s : state) : state :=
  State (callback_metrics s) (logged_metrics s) (progress_bar_metrics s)
    (eval_loop_results s) (_current_stage s) (cached_split_idx s)
    (cached__split_idx s) (manager_split_idx s)
    (trainer_split_idx s) (testing s) (running_sanity_check s) (is_global_zero s)
    (verbose_test s) (on_gpu s) (log_gpu_memory s) (has_logger s) (current_epoch s)
    (global_step s) (dev_debugger_enabled s) (step_metrics s) calls saves.

(** A method either returns a value or raises; the state it leaves behind is
    kept in both cases, since an exception does not undo assignments. *)
Inductive outcome (A : Type) :=
| Return (a : A)
| Raise (e : exn).
Arguments Return {A} a.
Arguments Raise {A} e.

Definition M (A : Type) : Type := state -> outcome A * state.

Definition ret {A} (a : A) : M A := fun s => (Return a, s).
Definition raise {A} (e : exn) : M A := fun s => (Raise e, s).
Definition bind {A B} (c : M A) (k : A -> M B) : M B :=
  fun s => match c s with
           | (Return a, s') => k a s'
           | (Raise e, s') => (Raise e, s')
           end.
Definition get : M state := fun s => (Return s, s).
Definition gets {A} (f : state -> A) : M A := fun s => (Return (f s), s).
Definition modify (f : state -> state) : M unit := fun s => (Return tt, f s).

Declare Scope py_scope.
Delimit Scope py_scope with py.
Notation "'let*' x ':=' c 'in' k" := (bind c (fun x => k))
  (at level 10, x pattern, c at level 100, k at level 200) : py_scope.
Notation "c ';;' k" := (bind c (fun _ => k))
  (at level 100, k at level 200, right associativity) : py_scope.
Local Open Scope py_scope.

(** [for x in l: body x] *)
Fixpoint for_each {A} (l : list A) (body : A -> M unit) : M unit :=
  match l with
  | [] => ret tt
  | x :: l' => body x ;; for_each l' body
  end.

(** [if b: c] *)
Definition when (b : bool) (c : M unit) : M unit := if b then c else ret tt.

(** A computation that only raises or returns, run inside a method. *)
Definition lift {A} (o : outcome A) : M A := fun s => (o, s).

Definition obind {A B} (o : outcome A) (k : A -> outcome B) : outcome B :=
  match o with
  | Return a => k a
  | Raise e => Raise e
  end.

(** [l[0]] on a list. *)
Definition index0 {A} (l : list A) : outcome A :=
  match l with
  | [] => Raise IndexError
  | x :: _ => Return x
  end.

(** [try: body / except IndexError: handler] *)
Definition except_IndexError {A} (body : outcome A) (handler : A) : outcome A :=
  match body with
  | Raise IndexError => Return handler
  | o => o
  end.

(** ** LoggerStages and the stage lookup *)

Inductive LoggerStages := TRAIN | VAL | TEST | ALL.

(** [s.value] *)
Definition LoggerStages_value (s : LoggerStages) : string :=
  match s with
  | TRAIN => "train"
  | VAL => "validation"
  | TEST => "test"
  | ALL => "all"
  end.

(** The members in declaration order: [[s for s in LoggerStages]]. *)
Definition LoggerStages_members : list LoggerStages := [TRAIN; VAL; TEST; ALL].

(** [sorted] on a list of strings. *)
Fixpoint sorted_insert (x : string) (l : list string) : list string :=
  match l with
  | [] => [x]
  | y :: l' => if String.leb x y then x :: l else y :: sorted_insert x l'
  end.

Definition sorted (l : list string) : list string := foldr sorted_insert [] l.

(** [l[1:]] *)
Definition drop_first {A} (l : list A) : list A := List.tl l.

(** [x in l] for strings. *)
Definition str_in (x : string) (l : list string) : bool :=
  existsb (String.eqb x) l.

(** [LoggerConnector.__stages], set by [__init__]. *)
Definition __stages : list string := sorted (LoggerStages_value <$> LoggerStages_members).

(** [LoggerConnector.__lookup_stages], in the order of the literal. *)
Definition __lookup_stages : list (string * string) :=
  [("0", "test"); ("1", "val"); ("True", "test"); ("False", "val")].

(** [k in d] and [d[k]] on a literal dictionary. *)
Fixpoint assoc (k : string) (d : list (string * string)) : option string :=
  match d with
  | [] => None
  | (k', v) :: d' => if String.eqb k k' then Some v else assoc k d'
  end.

(** The argument of [_determine_stage]: [Union[str, bool]]. *)
Inductive stage_or_testing :=
| AStr (s : string)
| ABool (b : bool).

(** [str(x)] *)
Definition str (x : stage_or_testing) : string :=
  match x with
  | AStr s => s
  | ABool true => "True"
  | ABool false => "False"
  end.

(** [repr] of a list of strings, as an f-string prints it. *)
Definition repr_list (l : list string) : string :=
  "[" +:+ String.concat ", " ((fun s => "'" +:+ s +:+ "'") <$> l) +:+ "]".

Definition _determine_stage (x : stage_or_testing) : M string :=
  let stage_or_testing := str x in
  let stages := drop_first __stages in
  if str_in stage_or_testing stages then ret stage_or_testing
  else match assoc stage_or_testing __lookup_stages with
       | Some stage => ret stage
       | None =>
           raise (MisconfigurationException
                    ("Provide stage_or_testing " +:+ stage_or_testing
                     +:+ " doesn't belong either to " +:+ repr_list stages
                     +:+ " or dict_keys(" +:+ repr_list (__lookup_stages.*1) +:+ ")"))
       end.

(** [_determine_stage_from_hook_name] with the hook name given. *)
Definition _determine_stage_from_hook_name (hook_name : string) : string :=
  if Str.contains (LoggerStages_value TRAIN) hook_name then LoggerStages_value TRAIN
  else if Str.contains (LoggerStages_value VAL) hook_name then LoggerStages_value VAL
  else if Str.contains (LoggerStages_value TEST) hook_name then LoggerStages_value TEST
  else LoggerStages_value ALL.

(** ** BatchSplitIdxManager and the split-index scope *)

(** The dictionaries [_cached_results] and [_split_idx_manager] are built
    once by [__init__], the first over [__stages] and the second over
    [__stages[1:]], and no method adds or removes a key: subscripting them
    raises [KeyError] exactly outside these lists.  An attribute that was
    never assigned reads as [Unset]. *)
Definition attr_of (m : gmap string attr) (stage : string) : attr :=
  default Unset (m !! stage).

Definition _cached_results_key (stage : string) : M unit :=
  if str_in stage __stages then ret tt else raise (KeyError stage).

Definition _split_idx_manager_key (stage : string) : M unit :=
  if str_in stage (drop_first __stages) then ret tt else raise (KeyError stage).

(** [split_idx_manager]; the manager it returns is named by its stage. *)
Definition split_idx_manager (x : stage_or_testing) (split_idx : Z) : M string :=
  let* stage := _determine_stage x in
  modify (set__current_stage (Some stage)) ;;
  _split_idx_manager_key stage ;;
  modify (fun s => set_manager_split_idx (<[stage := IsInt split_idx]> (manager_split_idx s)) s) ;;
  ret stage.

Module BatchSplitIdxManager.

(** [self.split_idx], which [split_idx_manager] assigns. *)
Definition self_split_idx (stage : string) : M attr :=
  let* s := get in
  match attr_of (manager_split_idx s) stage with
  | Unset => raise (AttributeError "split_idx")
  | a => ret a
  end.

Definition __enter__ (stage : string) : M unit :=
  let* a := self_split_idx stage in
  modify (set_trainer_split_idx a) ;;
  let* a := self_split_idx stage in
  _cached_results_key stage ;;
  modify (fun s => set_cached_split_idx (<[stage := a]> (cached_split_idx s)) s).

(** [__exit__] returns [None], so an exception of the body is raised
    again after it. *)
Definition __exit__ (stage : string) : M unit :=
  _cached_results_key stage ;;
  modify (fun s => set_cached_split_idx (<[stage := IsNone]> (cached_split_idx s)) s).

(** [with manager: body] *)
Definition with_ {A} (stage : string) (body : M A) : M A :=
  __enter__ stage ;;
  fun s => let (o, s') := body s in
           match __exit__ stage s' with
           | (Return _, s'') => (o, s'')
           | (Raise e, s'') => (Raise e, s'')
           end.

End BatchSplitIdxManager.


(** ** The evaluation result list *)

(** The loop of [add_to_eval_loop_results] over [list(callback_metrics.keys())]:
    a key with ["/dataloader_idx_"] in it is deleted when the integer after
    its last underscore is not [dl_idx]. *)
Fixpoint prune_dataloader_keys (dl_idx : Z) (ks : list string) (callback_metrics : dict)
  : outcome dict :=
  match ks with
  | [] => Return callback_metrics
  | key :: ks' =>
      if Str.contains "/dataloader_idx_" key then
        match Str.int (Str.last (Str.split "_" key)) with
        | None => Raise ValueError
        | Some dl_idx_in_key =>
            if negb (dl_idx_in_key =? dl_idx)
            then prune_dataloader_keys dl_idx ks' (delete key callback_metrics)
            else prune_dataloader_keys dl_idx ks' callback_metrics
        end
      else prune_dataloader_keys dl_idx ks' callback_metrics
  end.

Definition add_to_eval_loop_results (dl_idx : Z) : M unit :=
  let* s := get in
  let callback_metrics := deepcopy (callback_metrics s) in
  let* callback_metrics :=
    lift (prune_dataloader_keys dl_idx (keys callback_metrics) callback_metrics) in
  modify (fun s => set_eval_loop_results (eval_loop_results s ++ [callback_metrics]) s).

(** [_get_evaluate_epoch_results]; what it prints under [verbose_test] is
    not part of the state. *)
Definition _get_evaluate_epoch_results (test_mode : bool) : M (list dict) :=
  let* s := get in
  let* results :=
    if testing s then
      let callback_metrics := deepcopy (callback_metrics s) in
      let* callback_metrics :=
        if dev_debugger_enabled s then
          match callback_metrics !! "debug_epoch" with
          | Some _ => ret (delete "debug_epoch" callback_metrics)
          | None => raise (KeyError "debug_epoch")
          end
        else ret callback_metrics in
      modify (fun s => set_eval_loop_results (eval_loop_results s ++ [callback_metrics]) s) ;;
      let* s := get in
      ret [dict_ChainMap (eval_loop_results s)]
    else gets eval_loop_results in
  (* clear mem *)
  modify (set_eval_loop_results []) ;;
  ret results.

(** ** Results handed over by the loops *)

(** One evaluation result: [None], a Python number, a tensor, a plain
    mapping, or a structured [Result].  The plain mappings are those of
    [legacy_dict]. *)
Inductive eval_item (legacy_dict : Type) :=
| INone
| INum (x : Q)
| ITensor (t : tensor)
| IDict (d : legacy_dict)
| IResult (r : Result).
Arguments INone {legacy_dict}.
Arguments INum {legacy_dict} x.
Arguments ITensor {legacy_dict} t.
Arguments IDict {legacy_dict} d.
Arguments IResult {legacy_dict} r.

(** What the evaluation loop passes: a list of results, or one result. *)
Inductive eval_results_t (legacy_dict : Type) :=
| EList (l : list (eval_item legacy_dict))
| EItem (e : eval_item legacy_dict).
Arguments EList {legacy_dict} l.
Arguments EItem {legacy_dict} e.

(** [len(t)] of a tensor: its first dimension; a 0-d tensor has none. *)
Definition tensor_len (t : tensor) : outcome nat :=
  match t with
  | Tensor [] _ => Raise TypeError
  | Tensor (n :: _) _ => Return n
  end.

(** ** The connector's logging methods

    What the file imports or calls without defining it is a variable of
    the section: torch's [Tensor.item], the trainer's [metrics_to_scalars]
    and [process_dict_result], [memory.get_memory_profile], [flatten_dict],
    the class methods of [Result], the model's [training_epoch_end] hook,
    and the [cached_metrics] accessor with its [get_as_list] and
    [get_as_dict], which only read the state.  Each of them may raise. *)
Section Connector.

Variable legacy_dict : Type.
Variable dict_len : legacy_dict -> nat.
Variable item : tensor -> outcome value.
Variable metrics_to_scalars : dict -> outcome dict.
Variable get_memory_profile : state -> dict.
Variable flatten_dict : eval_item legacy_dict -> outcome dict.
Variable process_dict_result :
  eval_item legacy_dict -> outcome (dict * dict * dict).
Variable cached_metrics_get_as_list :
  stage_or_testing -> string -> string -> state -> outcome (list dict).
Variable cached_metrics_get_as_dict :
  stage_or_testing -> string -> string -> state -> outcome dict.
Variable reduce_on_epoch_end : list Result -> outcome Result.

Abbreviation item_t := (eval_item legacy_dict).
Abbreviation results_t := (eval_results_t legacy_dict).

Definition add_progress_bar_metrics (metrics : dict) : M unit :=
  for_each (map_to_list metrics) (fun '(k, v) =>
    let* v := match v with
              | Tens t => lift (item t)
              | _ => ret v
              end in
    modify (fun s => set_progress_bar_metrics (<[k := v]> (progress_bar_metrics s)) s)).

(** The first half of [log_metrics], up to [# log actual metrics]: the
    dictionary [metrics] as the caller sees it afterwards, the
    dictionary [scalar_metrics], and the step. *)
Definition scalar_metrics_and_step (s : state) (metrics grad_norm_dic : dict)
    (step : option value) : outcome (dict * dict * value) :=
  (* add gpu memory *)
  let metrics := if on_gpu s && log_gpu_memory s
                 then update metrics (get_memory_profile s) else metrics in
  (* add norms *)
  let metrics := update metrics grad_norm_dic in
  (* turn all tensors to scalars *)
  match metrics_to_scalars metrics with
  | Raise e => Raise e
  | Return scalar_metrics =>
      match scalar_metrics !! "step", step with
      | Some v, None => Return (metrics, delete "step" scalar_metrics, v)
      | None, None =>
          Return (metrics, <["epoch" := Int (current_epoch s)]> scalar_metrics,
                  Int (global_step s))
      | _, Some step => Return (metrics, scalar_metrics, step)
      end
  end.

(** [log_metrics]; it returns [None], and here the argument [metrics]
    as its in-place updates leave it. *)
Definition log_metrics (metrics grad_norm_dic : dict) (step : option value)
  : M dict :=
  let* s := get in
  let* r := lift (scalar_metrics_and_step s metrics grad_norm_dic step) in
  let '(metrics, scalar_metrics, step) := r in
  (* log actual metrics *)
  when (has_logger s) (
    when (is_global_zero s) (
      modify (fun s => set_backend (backend_calls s ++ [BackendCall scalar_metrics step])
                         (S (backend_saves s)) s)) ;;
    (* track the logged metrics *)
    modify (fun s => set_logged_metrics (update (logged_metrics s) scalar_metrics) s)) ;;
  ret metrics.

Definition log_epoch_metrics_on_evaluation_end (metrics_to_log : list dict) : M unit :=
  let metrics_to_log := dict_ChainMap metrics_to_log in
  when (0 <? size metrics_to_log)%nat (log_metrics metrics_to_log ∅ None ;; ret tt).

Definition callback_metrics_update (m : dict) : M unit :=
  modify (fun s => set_callback_metrics (update (callback_metrics s) m) s).

Definition logged_metrics_update (m : dict) : M unit :=
  modify (fun s => set_logged_metrics (update (logged_metrics s) m) s).

(** *** [_track_callback_metrics] *)

(** [len(eval_results)] *)
Definition eval_results_len (e : results_t) : outcome nat :=
  match e with
  | EList l => Return (length l)
  | EItem INone => Raise TypeError
  | EItem (INum _) => Raise TypeError
  | EItem (ITensor t) => tensor_len t
  | EItem (IDict d) => Return (dict_len d)
  | EItem (IResult r) => Return (r_len r)
  end.

(** [eval_results[0]]; a mapping has metric names as keys, not [0]. *)
Definition eval_results_first (e : results_t) : outcome item_t :=
  match e with
  | EList [] => Raise IndexError
  | EList (x :: _) => Return x
  | EItem INone => Raise TypeError
  | EItem (INum _) => Raise TypeError
  | EItem (ITensor (Tensor (S _ :: shape) data)) =>
      Return (ITensor (Tensor shape (take (foldr Nat.mul 1%nat shape) data)))
  | EItem (ITensor _) => Raise IndexError
  | EItem (IDict _) => Raise (KeyError "0")
  | EItem (IResult _) => Raise (KeyError "0")
  end.

(** [x is None or not isinstance(x, Result)] *)
Definition none_or_not_Result (x : item_t) : bool :=
  match x with
  | IResult _ => false
  | _ => true
  end.

(** [x.callback_metrics] *)
Definition item_callback_metrics (x : item_t) : outcome dict :=
  match x with
  | IResult r => Return (r_callback_metrics r)
  | _ => Raise (AttributeError "callback_metrics")
  end.

(** The two assignments under [if 'val_loss' in flat]. *)
Definition val_loss_aliases (flat : dict) : dict :=
  match flat !! "val_loss" with
  | Some v => <["early_stop_on" := v]> (<["checkpoint_on" := v]> flat)
  | None => flat
  end.

(** The loop over a list of legacy results.  The local [flat] keeps its
    binding from one round to the next: a result that is neither a
    tensor nor a [dict] leaves it as it was, and unbound in the first
    round. *)
Fixpoint track_legacy_list (l : list item_t) (flat : option dict) : M unit :=
  match l with
  | [] => ret tt
  | eval_result :: l' =>
      let* flat :=
        match eval_result with
        | ITensor t => ret (Some ({[ "val_loss" := Tens t ]} : dict))
        | IDict _ | IResult _ =>
            let* f := lift (flatten_dict eval_result) in ret (Some f)
        | INone | INum _ => ret flat
        end in
      match flat with
      | None => raise (UnboundLocalError "flat")
      | Some flat =>
          let flat := val_loss_aliases flat in
          callback_metrics_update flat ;;
          track_legacy_list l' (Some flat)
      end
  end.

Definition _track_callback_metrics (eval_results : results_t) (using_eval_result : bool)
  : M unit :=
  let* n := lift (eval_results_len eval_results) in
  let* skip :=
    if (0 <? n)%nat then
      let* first := lift (eval_results_first eval_results) in
      ret (none_or_not_Result first)
    else ret false in
  if skip then ret tt
  else if using_eval_result then
    match eval_results with
    | EList l =>
        for_each l (fun eval_result =>
          let* m := lift (item_callback_metrics eval_result) in
          callback_metrics_update m)
    | EItem e =>
        let* m := lift (item_callback_metrics e) in
        callback_metrics_update m
    end
  else
    match eval_results with
    | EList l => track_legacy_list l None
    | EItem e =>
        (* with a scalar return, auto set it to "val_loss" for callbacks *)
        let* flat :=
          match e with
          | ITensor t => ret ({[ "val_loss" := Tens t ]} : dict)
          | _ => lift (flatten_dict e)
          end in
        callback_metrics_update (val_loss_aliases flat)
    end.

(** *** The evaluation epoch end *)

(** [for dl_idx, dl_metrics in enumerate(step_metrics)], from [dl_idx] on;
    the list [metrics_to_log] is threaded through. *)
Fixpoint reduce_dataloaders (dl_idx : Z) (step_metrics : list (list Result))
    (metrics_to_log : list dict) : M (list dict) :=
  match step_metrics with
  | [] => ret metrics_to_log
  | dl_metrics :: rest =>
      if (length dl_metrics =? 0)%nat
      then reduce_dataloaders (dl_idx + 1) rest metrics_to_log
      else
        let* reduced_epoch_metrics := lift (reduce_on_epoch_end dl_metrics) in
        let logger_metrics := r_epoch_log_metrics reduced_epoch_metrics in
        let pbar_metrics := r_epoch_pbar_metrics reduced_epoch_metrics in
        let forked_metrics := r_forked_metrics reduced_epoch_metrics in
        (* track the metrics *)
        logged_metrics_update logger_metrics ;;
        add_progress_bar_metrics pbar_metrics ;;
        (* enable the metrics to be monitored *)
        callback_metrics_update logger_metrics ;;
        callback_metrics_update pbar_metrics ;;
        (* forked metrics were dropped, enable them for callbacks *)
        callback_metrics_update forked_metrics ;;
        (* track the final results for the dataloader *)
        add_to_eval_loop_results dl_idx ;;
        (* actually log *)
        let metrics_to_log :=
          if (0 <? size logger_metrics)%nat
          then metrics_to_log ++ [logger_metrics] else metrics_to_log in
        reduce_dataloaders (dl_idx + 1) rest metrics_to_log
  end.

(** [_track_callback_metrics_1_0]; it returns [None], and here the list
    [metrics_to_log] as its appends leave it. *)
Definition _track_callback_metrics_1_0 (logs : Result) (metrics_to_log : list dict)
    (reduce_on_epoch : bool) : M (list dict) :=
  let* step_metrics := gets step_metrics in
  (* clear mem *)
  modify (set_step_metrics []) ;;
  let* s := get in
  if running_sanity_check s then ret metrics_to_log
  else
    let epoch_logger_metrics := r_epoch_log_metrics logs in
    let epoch_pbar_metrics := r_epoch_pbar_metrics logs in
    logged_metrics_update epoch_logger_metrics ;;
    add_progress_bar_metrics epoch_pbar_metrics ;;
    (* enable the metrics to be monitored *)
    callback_metrics_update epoch_logger_metrics ;;
    callback_metrics_update epoch_pbar_metrics ;;
    let metrics_to_log :=
      if (0 <? size epoch_logger_metrics)%nat
      then metrics_to_log ++ [epoch_logger_metrics] else metrics_to_log in
    if reduce_on_epoch then reduce_dataloaders 0 step_metrics metrics_to_log
    else ret metrics_to_log.

(** One round of the loop of
    [__process_eval_epoch_end_results_and_log_legacy]. *)
Definition process_eval_result (test_mode : bool) (result : item_t) : M unit :=
  let* r :=
    match result with
    | IResult r =>
        if is_eval r then
          (* in testing we don't need the callback metrics *)
          ret (r_epoch_pbar_metrics r, r_epoch_log_metrics r,
               if test_mode then (∅ : dict) else r_callback_metrics r)
        else lift (process_dict_result result)
    | _ => lift (process_dict_result result)
    end in
  let '(prog_bar_metrics, log_metrics_, callback_metrics_) := r in
  (* eval loop returns all metrics *)
  let dataloader_result_metrics :=
    update (update prog_bar_metrics log_metrics_) callback_metrics_ in
  (* add metrics to prog bar *)
  add_progress_bar_metrics prog_bar_metrics ;;
  (* log metrics *)
  let* log_metrics_ :=
    if (0 <? size log_metrics_)%nat then log_metrics log_metrics_ ∅ None
    else ret log_metrics_ in
  (* track metrics for callbacks *)
  callback_metrics_update callback_metrics_ ;;
  callback_metrics_update log_metrics_ ;;
  callback_metrics_update prog_bar_metrics ;;
  when (0 <? size dataloader_result_metrics)%nat
    (modify (fun s => set_eval_loop_results
                        (eval_loop_results s ++ [dataloader_result_metrics]) s)).

Definition __process_eval_epoch_end_results_and_log_legacy
    (eval_results : results_t) (test_mode : bool) : M unit :=
  let* s := get in
  if running_sanity_check s then ret tt
  else
    match eval_results with
    | EItem INone => ret tt
    | _ =>
        let* n := lift (eval_results_len eval_results) in
        when (0 <? n)%nat (
          (* the user may return something at every validation step
             without final reduction *)
          let eval_results :=
            match eval_results with
            | EList l => l
            | EItem e => [e]
            end in
          for_each eval_results (process_eval_result test_mode))
    end.

Definition before_on_evaluation_epoch_end (deprecated_eval_results : results_t)
    (epoch_logs : Result) (using_eval_result test_mode : bool) : M unit :=
  _track_callback_metrics deprecated_eval_results using_eval_result ;;
  let* s := get in
  let* metrics_to_log :=
    lift (cached_metrics_get_as_list (ABool (testing s))
            "before_on_batch_start" "epoch_log_metrics" s) in
  _track_callback_metrics_1_0 epoch_logs metrics_to_log true ;;
  __process_eval_epoch_end_results_and_log_legacy deprecated_eval_results test_mode.

(** *** The training step end *)

(** [opt_closure_result.training_step_output]: a [Result], or a legacy
    output with its [log_metrics] and [pbar_on_batch_end]. *)
Inductive training_step_output :=
| StructuredOutput (r : Result)
| LegacyOutput (log_metrics pbar_on_batch_end : dict).

(** The names bound at the top level of the module, by its imports and
    its class statements; a name read in a method that is neither a
    local nor one of these (nor a builtin) raises [NameError]. *)
Definition module_globals : list string :=
  ["os"; "Enum"; "torch"; "memory"; "TensorBoardLogger"; "LoggerCollection";
   "flatten_dict"; "is_overridden"; "EvalResult"; "Result";
   "MisconfigurationException"; "pprint"; "Iterable"; "Union"; "deepcopy";
   "defaultdict"; "ChainMap"; "LoggerStages"; "HookResults"; "EpochLoopResult";
   "BatchSplitIdxManager"; "LoggerConnector"].

(** [name.method(...)] on a global name: the globals that exist are
    modules, classes and functions, which have no [update] or [append]. *)
Definition call_on_global (name method : string) : M unit :=
  if str_in name module_globals then raise (AttributeError method)
  else raise (NameError name).

(** [EpochLoopResult.log_training_step_metrics] *)
Definition log_training_step_metrics (training_step_output : training_step_output)
  : M unit :=
  (* decide which metrics to log (results vs dict return) *)
  let* r :=
    match training_step_output with
    | StructuredOutput r =>
        let metrics_to_log := r_batch_log_metrics_no_forked r in
        let step_pbar_metrics := r_batch_pbar_metrics_no_forked r in
        let forked_metrics := r_forked_metrics r in
        call_on_global "callback_metrics" "update" ;;
        ret (metrics_to_log, step_pbar_metrics)
    | LegacyOutput log_metrics pbar_on_batch_end =>
        ret (log_metrics, pbar_on_batch_end)
    end in
  let '(metrics_to_log, step_pbar_metrics) := r in
  (* track batch log metrics *)
  call_on_global "batch_log_metrics" "append" ;;
  (* add initially computed step metrics. *)
  let* s := get in
  let* cache_internal_batch_pbar_metrics :=
    lift (cached_metrics_get_as_dict (AStr "train")
            "before_on_batch_start" "batch_pbar_metrics" s) in
  when (0 <? size cache_internal_batch_pbar_metrics)%nat (
    add_progress_bar_metrics cache_internal_batch_pbar_metrics ;;
    callback_metrics_update cache_internal_batch_pbar_metrics) ;;
  (* track progress bar metrics *)
  when (0 <? size step_pbar_metrics)%nat (
    add_progress_bar_metrics step_pbar_metrics ;;
    callback_metrics_update step_pbar_metrics) ;;
  call_on_global "batch_callback_metrics" "append".

(** *** The training epoch end *)

(** [epoch_output[optimizer_idx][training_step_idx][tbptt_index]]; a
    training step holds a list of results or one result. *)
Abbreviation epoch_output_t := (list (list results_t)).

Record accumulator := {
  num_values : Z;
  mean : value
}.

(** What [__prepare_epoch_end_inputs] makes of one training step. *)
Inductive prepared_step :=
| PList (l : list dict)
| POne (d : dict).

(** The argument of the model's [training_epoch_end]. *)
Inductive hook_input :=
| HPrepared (e : list (list prepared_step))
| HPreparedFirst (e : list prepared_step)
| HRaw (e : epoch_output_t)
| HRawFirst (e : list results_t)
| HGathered (e : list Result)
| HGatheredFirst (r : Result).

Variable reduce_across_time : results_t -> outcome Result.
Variable gather : results_t -> outcome Result.
Variable padded_gather : list Result -> outcome Result.
(** [is_overridden('training_epoch_end', model=model)] *)
Variable is_overridden_training_epoch_end : bool.
Variable automatic_optimization : bool.
(** The hook: what it returns, and [model._results] after it. *)
Variable model_training_epoch_end : hook_input -> outcome (item_t * Result).

(** [Result()] *)
Definition empty_Result : Result :=
  {| is_eval := false; r_len := 0; r_has_extra := false;
     r_callback_metrics := ∅; r_batch_log_metrics_no_forked := ∅;
     r_batch_pbar_metrics_no_forked := ∅; r_epoch_log_metrics := ∅;
     r_epoch_pbar_metrics := ∅; r_forked_metrics := ∅; r_extra := ∅;
     r_minimize := NoneVal |}.

(** [x.__class__.f(arg)] for a class method [f] of [Result]. *)
Definition class_call {A} (name : string) (f : A -> outcome Result) (x : item_t) (arg : A)
  : outcome Result :=
  match x with
  | IResult _ => f arg
  | _ => Raise (AttributeError name)
  end.

(** [for x in tbptt_outs: out = x.extra; out['loss'] = x.minimize;
    result.append(out)] over a list.  For a [Result] without the key
    ['extra'], [out] is [None] and the assignment to [out['loss']] raises
    [TypeError]; what is no [Result] has no attribute [extra]. *)
Fixpoint extras_of_list (l : list item_t) : outcome (list dict) :=
  match l with
  | [] => Return []
  | IResult r :: l' =>
      if r_has_extra r then
        obind (extras_of_list l') (fun rest =>
          Return (<["loss" := r_minimize r]> (r_extra r) :: rest))
      else Raise TypeError
  | _ :: _ => Raise (AttributeError "extra")
  end.

(** The same loop over any training step.  Iterating over a mapping
    gives its keys, which are strings and have no [extra]. *)
Definition extras_of (tbptt_outs : results_t) : outcome (list dict) :=
  match tbptt_outs with
  | EList l => extras_of_list l
  | EItem INone => Raise TypeError
  | EItem (INum _) => Raise TypeError
  | EItem (ITensor t) =>
      obind (tensor_len t) (fun n =>
        if (0 <? n)%nat then Raise (AttributeError "extra") else Return [])
  | EItem (IDict d) =>
      if (0 <? dict_len d)%nat then Raise (AttributeError "extra") else Return []
  | EItem (IResult r) =>
      if (0 <? r_len r)%nat then Raise (AttributeError "extra") else Return []
  end.

(** [mapM] on [outcome]: a loop that appends one result per element. *)
Fixpoint collect {A B} (f : A -> outcome B) (l : list A) : outcome (list B) :=
  match l with
  | [] => Return []
  | x :: l' => obind (f x) (fun y => obind (collect f l') (fun ys => Return (y :: ys)))
  end.

Definition __prepare_epoch_end_inputs (epoch_output : epoch_output_t)
  : outcome (list (list prepared_step)) :=
  collect (fun opt_outputs =>
    (* gather across time first *)
    collect (fun tbptt_outs =>
      obind (extras_of tbptt_outs) (fun result =>
        (* when time = 0, pass in the literal dict instead of array *)
        match result with
        | [d] => Return (POne d)
        | _ => Return (PList result)
        end)) opt_outputs) epoch_output.

Definition __gather_result_across_time_and_optimizers (epoch_output : epoch_output_t)
  : outcome (list Result) :=
  collect (fun opt_outputs =>
    (* gather across time first *)
    obind (collect (fun tbptt_outs =>
             obind (eval_results_first tbptt_outs) (fun first =>
               class_call "gather" gather first tbptt_outs)) opt_outputs)
      (fun time_gathered_outputs =>
         (* gather across training steps *)
         obind (index0 time_gathered_outputs) (fun first =>
           padded_gather time_gathered_outputs))) epoch_output.

(** The loop of [__auto_reduce_results_on_epoch_end] over the
    optimizers.  The mean it stores in [opt_outputs.minimize] is read by
    nothing afterwards. *)
Fixpoint auto_reduce_loop (epoch_output : epoch_output_t)
    (epoch_log_metrics epoch_progress_bar_metrics : dict) : outcome (dict * dict) :=
  match epoch_output with
  | [] => Return (epoch_log_metrics, epoch_progress_bar_metrics)
  | opt_outputs :: rest =>
      (* reduce across time first *)
      obind (collect (fun tbptt_outs =>
               obind (eval_results_first tbptt_outs) (fun first =>
                 class_call "reduce_across_time" reduce_across_time first tbptt_outs))
               opt_outputs)
        (fun reduced =>
           let time_reduced_outputs := filter (fun r => 1 < r_len r)%nat reduced in
           match time_reduced_outputs with
           | [] => auto_reduce_loop rest epoch_log_metrics epoch_progress_bar_metrics
           | _ :: _ =>
               (* reduce across training steps *)
               obind (reduce_on_epoch_end time_reduced_outputs) (fun opt_outputs =>
                 auto_reduce_loop rest
                   (update epoch_log_metrics (r_epoch_log_metrics opt_outputs))
                   (update epoch_progress_bar_metrics (r_epoch_pbar_metrics opt_outputs)))
           end)
  end.

Definition __auto_reduce_results_on_epoch_end (epoch_output : epoch_output_t)
  : outcome (dict * dict) :=
  auto_reduce_loop epoch_output ∅ ∅.

(** [training_epoch_end] of the connector. *)
Definition training_epoch_end (epoch_output : epoch_output_t) (num_optimizers : Z)
  : outcome Result :=
  if negb is_overridden_training_epoch_end then Return empty_Result
  else
    obind (__prepare_epoch_end_inputs epoch_output) (fun epoch_output =>
      obind (if (num_optimizers =? 1) || negb automatic_optimization
             then obind (index0 epoch_output) (fun e => Return (HPreparedFirst e))
             else Return (HPrepared epoch_output))
        (fun input =>
           (* lightningmodule hook *)
           obind (model_training_epoch_end input) (fun '(returned, _results) =>
             match returned with
             | INone =>
                 (* user can ALSO log at the end of an epoch *)
                 Return _results
             | _ =>
                 Raise (MisconfigurationException
                   ("training_epoch_end expects a return of None. "
                    +:+ "HINT: remove the return statement in training_epoch_end"))
             end))).

Definition __run_legacy_training_epoch_end (num_optimizers : Z)
    (epoch_output : epoch_output_t) (is_result_obj : bool)
    (epoch_callback_metrics : dict) : outcome (dict * dict * dict) :=
  if is_overridden_training_epoch_end then
    obind (if is_result_obj then
             (* gather across time and training steps so each opt idx
                has a single result obj *)
             obind (__gather_result_across_time_and_optimizers epoch_output)
               (fun gathered =>
                  if num_optimizers =? 1
                  then obind (index0 gathered) (fun r => Return (HGatheredFirst r))
                  else Return (HGathered gathered))
           else
             if num_optimizers =? 1
             then obind (index0 epoch_output) (fun e => Return (HRawFirst e))
             else Return (HRaw epoch_output))
      (fun input =>
         (* run training_epoch_end *)
         obind (model_training_epoch_end input) (fun '(epoch_output, _) =>
           match epoch_output with
           | IResult r =>
               Return (r_epoch_log_metrics r, r_epoch_pbar_metrics r,
                       epoch_callback_metrics)
           | _ =>
               obind (process_dict_result epoch_output)
                 (fun '(prog_bar, log, callback) => Return (log, prog_bar, callback))
           end))
  else if is_result_obj then
    (* Structured Result (auto epoch end) *)
    obind (__auto_reduce_results_on_epoch_end epoch_output)
      (fun '(epoch_log_metrics, epoch_progress_bar_metrics) =>
         Return (epoch_log_metrics, epoch_progress_bar_metrics, epoch_callback_metrics))
  else Return (∅, ∅, epoch_callback_metrics).

(** [isinstance(x, Result)] and ['extra' in x] *)
Definition is_Result (x : item_t) : bool :=
  match x with
  | IResult _ => true
  | _ => false
  end.

Definition has_extra (x : item_t) : bool :=
  match x with
  | IResult r => r_has_extra r
  | _ => false
  end.

Definition log_train_epoch_end_metrics (epoch_output : epoch_output_t)
    (checkpoint_accumulator early_stopping_accumulator : accumulator)
    (num_optimizers : Z) : M unit :=
  let epoch_callback_metrics : dict := ∅ in
  (* Calculate epoch callback values if given *)
  let epoch_callback_metrics :=
    if 0 <? num_values checkpoint_accumulator
    then <["checkpoint_on" := mean checkpoint_accumulator]> epoch_callback_metrics
    else epoch_callback_metrics in
  let epoch_callback_metrics :=
    if 0 <? num_values early_stopping_accumulator
    then <["early_stop_on" := mean early_stopping_accumulator]> epoch_callback_metrics
    else epoch_callback_metrics in
  (* determine if using a result obj *)
  let* opt_idx_outputs := lift (index0 epoch_output) in
  let* r :=
    lift (except_IndexError
            (obind (index0 opt_idx_outputs) (fun first =>
               obind (match first with
                      | EList l => index0 l
                      | EItem e => Return e
                      end) (fun sample_obj =>
                 let is_result_obj :=
                   (0 <? length epoch_output)%nat && is_Result sample_obj in
                 let is_1_0_result := is_result_obj && has_extra sample_obj in
                 Return (is_result_obj, is_1_0_result))))
            (false, false)) in
  let '(is_result_obj, is_1_0_result) := r in
  let* out :=
    if is_1_0_result then
      (* NEW 1.0.0 PATH *)
      let* epoch_end_log_result :=
        lift (training_epoch_end epoch_output num_optimizers) in
      (* log/aggregate metrics automatically *)
      let* reduced := lift (__auto_reduce_results_on_epoch_end epoch_output) in
      let '(epoch_log_metrics, epoch_progress_bar_metrics) := reduced in
      let epoch_log_metrics :=
        update epoch_log_metrics (r_epoch_log_metrics epoch_end_log_result) in
      let epoch_progress_bar_metrics :=
        update epoch_progress_bar_metrics (r_epoch_pbar_metrics epoch_end_log_result) in
      let* s := get in
      let* cache_internal_epoch_log_metrics :=
        lift (cached_metrics_get_as_dict (AStr "train")
                "after_on_batch_end" "epoch_log_metrics" s) in
      let epoch_log_metrics := update epoch_log_metrics cache_internal_epoch_log_metrics in
      let* cache_internal_epoch_pbar_metrics :=
        lift (cached_metrics_get_as_dict (AStr "train")
                "after_on_batch_end" "epoch_pbar_metrics" s) in
      let epoch_progress_bar_metrics :=
        update epoch_progress_bar_metrics cache_internal_epoch_pbar_metrics in
      ret (epoch_log_metrics, epoch_progress_bar_metrics, epoch_callback_metrics)
    else
      lift (__run_legacy_training_epoch_end num_optimizers epoch_output
              is_result_obj epoch_callback_metrics) in
  let '(epoch_log_metrics, epoch_progress_bar_metrics, epoch_callback_metrics) := out in
  (* add the metrics to the loggers and callbacks *)
  when (0 <? size epoch_log_metrics)%nat (
    let* epoch_log_metrics := log_metrics epoch_log_metrics ∅ None in
    callback_metrics_update epoch_log_metrics) ;;
  (* add metrics to callbacks *)
  callback_metrics_update epoch_callback_metrics ;;
  (* add metrics to progress_bar and callbacks *)
  when (0 <? size epoch_progress_bar_metrics)%nat (
    add_progress_bar_metrics epoch_progress_bar_metrics ;;
    callback_metrics_update epoch_progress_bar_metrics).

End Connector.

(** [LoggerConnector.__init__], for a trainer with the given flags and
    counters, no accumulated step metrics and a backend that has received
    nothing. *)
Definition __init__ (testing running_sanity_check is_global_zero verbose_test
    on_gpu log_gpu_memory has_logger : bool) (current_epoch global_step : Z)
    (dev_debugger_enabled : bool) : state :=
  {| callback_metrics := ∅;
     logged_metrics := ∅;
     progress_bar_metrics := ∅;
     eval_loop_results := [];
     _current_stage := None;
     cached_split_idx := ∅;
     cached__split_idx := list_to_map ((fun stage => (stage, IsNone)) <$> __stages);
     manager_split_idx := ∅;
     trainer_split_idx := Unset;
     testing := testing;
     running_sanity_check := running_sanity_check;
     is_global_zero := is_global_zero;
     verbose_test := verbose_test;
     on_gpu := on_gpu;
     log_gpu_memory := log_gpu_memory;
     has_logger := has_logger;
     current_epoch := current_epoch;
     global_step := global_step;
     dev_debugger_enabled := dev_debugger_enabled;
     step_metrics := [];
     backend_calls := [];
     backend_saves := 0 |}.

(** ** Definitions the properties are stated with *)

(** The callback values [log_train_epoch_end_metrics] computes from the
    two accumulators. *)
Definition accumulated_callback_metrics (checkpoint_accumulator
    early_stopping_accumulator : accumulator) : dict :=
  let m : dict :=
    if 0 <? num_values checkpoint_accumulator
    then <["checkpoint_on" := mean checkpoint_accumulator]> ∅ else ∅ in
  if 0 <? num_values early_stopping_accumulator
  then <["early_stop_on" := mean early_stopping_accumulator]> m else m.

(** The merge the specification describes: on a collision the later
    mapping wins. *)
Definition merge_later_wins (maps : list dict) : dict := foldl update ∅ maps.

(** A connector in test mode that holds one dataloader result and a
    different value for the same metric in [callback_metrics]. *)
Definition testing_state : state :=
  set_eval_loop_results [{[ "acc" := Num (Qmake 9 10) ]}]
    (set_callback_metrics {[ "acc" := Num (Qmake 7 10) ]}
       (__init__ true false true false false false true 0 0 false)).

(** What [_get_evaluate_epoch_results] appends in test mode. *)
Definition test_snapshot (s : state) : dict :=
  if dev_debugger_enabled s
  then delete "debug_epoch" (deepcopy (callback_metrics s))
  else deepcopy (callback_metrics s).

(** [s'] differs from [s] in [callback_metrics] at most. *)
Definition only_callback_metrics (s s' : state) : Prop :=
  s' = set_callback_metrics (callback_metrics s') s.

(** A method that touches [callback_metrics] only, also when it raises. *)
Definition touches_callback_metrics_only {A} (c : M A) : Prop :=
  forall s, only_callback_metrics s (snd (c s)).


(** Collaborators for the examples: legacy mappings are flat dictionaries,
    [item] reads a one-element tensor, [metrics_to_scalars] returns its
    argument, [flatten_dict] returns a flat dictionary as it is and finds
    no metric in a [Result], no memory profile is taken, and
    [process_dict_result] finds no metrics. *)
Definition example_item (t : tensor) : outcome value :=
  match t with
  | Tensor _ [x] => Return (Num x)
  | _ => Raise ValueError
  end.

Definition example_flatten_dict (e : eval_item dict) : outcome dict :=
  match e with
  | IDict d => Return d
  | IResult _ => Return ∅
  | _ => Raise (AttributeError "items")
  end.

Definition example_process_dict_result (e : eval_item dict) : outcome (dict * dict * dict) :=
  Return (∅, ∅, ∅).

(** The accessor [cached_metrics] is not defined by the class: reading it
    raises [AttributeError]. *)
Definition cached_metrics_undefined {A} (_ : stage_or_testing) (_ _ : string) (_ : state)
  : outcome A :=
  Raise (AttributeError "cached_metrics").

(** An accessor that finds nothing cached. *)
Definition cached_metrics_empty_list (_ : stage_or_testing) (_ _ : string) (_ : state)
  : outcome (list dict) :=
  Return [].

Definition example_reduce_on_epoch_end (l : list Result) : outcome Result :=
  index0 l.

(** A structured evaluation result that carries one callback metric. *)
Definition example_Result : Result :=
  {| is_eval := true; r_len := 2; r_has_extra := false;
     r_callback_metrics := {[ "val_acc" := Num (Qmake 9 10) ]};
     r_batch_log_metrics_no_forked := ∅; r_batch_pbar_metrics_no_forked := ∅;
     r_epoch_log_metrics := ∅; r_epoch_pbar_metrics := ∅; r_forked_metrics := ∅;
     r_extra := ∅; r_minimize := NoneVal |}.

(** A structured training step result, with what the step returned under
    ['extra'] and the loss to minimize. *)
Definition example_step_Result : Result :=
  {| is_eval := false; r_len := 3; r_has_extra := true;
     r_callback_metrics := ∅; r_batch_log_metrics_no_forked := ∅;
     r_batch_pbar_metrics_no_forked := ∅; r_epoch_log_metrics := ∅;
     r_epoch_pbar_metrics := ∅; r_forked_metrics := ∅;
     r_extra := {[ "acc" := Num (Qmake 9 10) ]}; r_minimize := Num (Qmake 1 2) |}.

(** A connector during the sanity check, with step metrics accumulated for
    one dataloader. *)
Definition sanity_state : state :=
  set_step_metrics [[example_Result]]
    (__init__ false true true false false false true 0 0 false).

(** The scalar [0.42] as a 0-d tensor. *)
Definition scalar_042 : tensor := Tensor [] [Qmake 42 100].



(** Whether the characters of [s] are all ASCII, below U+0080. *)
Definition is_ascii (s : string) : bool :=
  forallb (fun a => (nat_of_ascii a <? 128)%nat) (list_ascii_of_string s).

(** Whether [int] raises on the last part of [key]. *)
Definition malformed (key : string) : bool :=
  Str.contains "/dataloader_idx_" key
  && match Str.int (Str.last (Str.split "_" key)) with
     | Some _ => false
     | None => true
     end.



(** ** The result caches

    [HookResults], [EpochLoopResult] and [capture_logging]: what the hooks
    of the model produce is appended per hook name and dataloader index.
    A cached result is the [Result] the model holds when it is cached. *)

(** The model, through the two attributes the caches read. *)
Record LightningModule := {
  _results : Result;
  _current_hook_fx_name : string
}.

Module HookResults.

(** [_internals] is a [defaultdict(list)]: a key that was never written
    reads as the empty list. *)
Record t := Build {
  _current_hook_fx_name : string;
  _internals : gmap Z (list Result)
}.

Definition __init__ (current_hook_fx_name : string) : t :=
  {| _current_hook_fx_name := current_hook_fx_name; _internals := ∅ |}.

(** [self._internals[dataloader_idx]] *)
Definition results_of (h : t) (dataloader_idx : Z) : list Result :=
  default [] (_internals h !! dataloader_idx).

Definition append (result : Result) (dataloader_idx split_idx : option Z) (h : t) : t :=
  (* TODO handle split_idx *)
  let dataloader_idx :=
    match dataloader_idx with
    | None => 0
    | Some i => i
    end in
  {| _current_hook_fx_name := _current_hook_fx_name h;
     _internals := <[dataloader_idx := results_of h dataloader_idx ++ [result]]>
                     (_internals h) |}.

End HookResults.

Module EpochLoopResult.

Record t := Build {
  _stage : string;
  _internals : gmap string HookResults.t;
  _dataloader_idx : option Z;
  _split_idx : option Z
}.

Definition __init__ (stage : string) : t :=
  {| _stage := stage; _internals := ∅; _dataloader_idx := None; _split_idx := None |}.

Definition cache_result (model_ref : LightningModule) (e : t) : t :=
  (* extract hook information *)
  let hook_result := _results model_ref in
  let current_hook_fx_name := _current_hook_fx_name model_ref in
  let internals :=
    match _internals e !! current_hook_fx_name with
    | Some _ => _internals e
    | None => <[current_hook_fx_name := HookResults.__init__ current_hook_fx_name]>
                (_internals e)
    end in
  {| _stage := _stage e;
     _internals := alter (HookResults.append hook_result (_dataloader_idx e) (_split_idx e))
                     current_hook_fx_name internals;
     _dataloader_idx := _dataloader_idx e;
     _split_idx := _split_idx e |}.

Definition reset (e : t) : t :=
  {| _stage := _stage e; _internals := ∅;
     _dataloader_idx := _dataloader_idx e; _split_idx := _split_idx e |}.

(** The results cached for a hook and a dataloader, none when the hook
    was never cached. *)
Definition cached (e : t) (hook_name : string) (dataloader_idx : Z) : list Result :=
  match _internals e !! hook_name with
  | Some h => HookResults.results_of h dataloader_idx
  | None => []
  end.

End EpochLoopResult.

(** [self._cached_results], as [__init__] builds it. *)
Definition _cached_results_init : gmap string EpochLoopResult.t :=
  list_to_map ((fun stage => (stage, EpochLoopResult.__init__ stage)) <$> __stages).

(** [capture_logging] on the dictionary [_cached_results]; the hook name
    is the model's current one. *)
Definition capture_logging (model_ref : LightningModule)
    (_cached_results : gmap string EpochLoopResult.t)
  : outcome (gmap string EpochLoopResult.t) :=
  let stage := _determine_stage_from_hook_name (_current_hook_fx_name model_ref) in
  match _cached_results !! stage with
  | None => Raise (KeyError stage)
  | Some e => Return (<[stage := EpochLoopResult.cache_result model_ref e]> _cached_results)
  end.

(** ** The training step log

    [log_train_step_metrics] reads three more attributes of the trainer;
    they are handed over with the batch output.  The remainder by a
    [log_every_n_steps] of zero raises [ZeroDivisionError] before the
    method has changed anything: the method then has no result ([None]). *)
Record log_schedule := {
  log_every_n_steps : Z;
  should_stop : bool;
  fast_dev_run : bool
}.

Record batch_output_t := {
  batch_log_metrics : option dict;
  grad_norm_dic : option dict
}.

(** [(self.trainer.global_step + 1) % self.trainer.log_every_n_steps == 0
    or self.trainer.should_stop] *)
Definition should_log_metrics (c : log_schedule) (s : state) : option bool :=
  if log_every_n_steps c =? 0 then None
  else Some (((global_step s + 1) mod log_every_n_steps c =? 0) || should_stop c).

Section TrainStep.

Variable metrics_to_scalars : dict -> outcome dict.
Variable get_memory_profile : state -> dict.

Definition log_train_step_metrics (c : log_schedule) (batch_output : batch_output_t)
  : state -> option (outcome unit * state) :=
  fun s =>
    match should_log_metrics c s with
    | None => None
    | Some should_log_metrics =>
        Some ((if should_log_metrics || fast_dev_run c then
                 (* logs user requested information to logger *)
                 let metrics := default ∅ (batch_log_metrics batch_output) in
                 let grad_norm_dic := default ∅ (grad_norm_dic batch_output) in
                 if (0 <? size metrics)%nat || (0 <? size grad_norm_dic)%nat then
                   let* metrics :=
                     log_metrics metrics_to_scalars get_memory_profile metrics
                       grad_norm_dic None in
                   callback_metrics_update metrics
                 else ret tt
               else ret tt) s)
    end.

End TrainStep.

(** ** Definitions for the frame properties *)

(** A method that leaves the part [f] of the state as it was, also when it
    raises. *)
Definition preserves {A B} (f : state -> B) (c : M A) : Prop :=
  forall s, f (snd (c s)) = f s.

(** What [add_progress_bar_metrics] stores for a value: [v.item()] for a
    tensor, the value itself otherwise. *)
Definition stored_value (item : tensor -> outcome value) (v : value) : outcome value :=
  match v with
  | Tens t => item t
  | _ => Return v
  end.

(** The dictionary [log_metrics] hands to [metrics_to_scalars]: the
    argument [metrics] after the memory profile and the gradient norms were
    merged into it. *)
Definition merged_metrics (get_memory_profile : state -> dict) (s : state)
    (metrics grad_norm_dic : dict) : dict :=
  update (if on_gpu s && log_gpu_memory s
          then update metrics (get_memory_profile s) else metrics) grad_norm_dic.

(** The dataloaders of [step_metrics] that have step metrics: those the
    loop of [_track_callback_metrics_1_0] does not skip. *)
Definition reduced_dataloaders (step_metrics : list (list Result)) : list (list Result) :=
  List.filter (fun dl_metrics => negb (length dl_metrics =? 0)%nat) step_metrics.

(** What [callback_metrics] holds after the callback metrics of a list of
    results were merged into it one after the other. *)
Definition merged_callback_metrics (callback_metrics : dict) (results : list Result) : dict :=
  foldl (fun cm r => update cm (r_callback_metrics r)) callback_metrics results.

(** An epoch output [epoch_output[optimizer_idx][training_step_idx][tbptt_index]]
    all of whose training steps are lists of structured results. *)
Definition structured_epoch_output {legacy_dict : Type} (epoch : list (list (list Result)))
  : list (list (eval_results_t legacy_dict)) :=
  map (map (fun step : list Result => EList (IResult <$> step))) epoch.

(** Whether every result of the epoch output has the key ['extra']. *)
Definition all_have_extra (epoch : list (list (list Result))) : bool :=
  forallb (forallb (forallb r_has_extra)) epoch.

(** A result's [extra] after ['loss'] was set to its [minimize]. *)
Definition extra_with_loss (r : Result) : dict := <["loss" := r_minimize r]> (r_extra r).

(** What the model's hook is handed for one training step: the extras
    of its results, or the one mapping when the step has one result. *)
Definition prepared_of (step : list Result) : prepared_step :=
  match extra_with_loss <$> step with
  | [d] => POne d
  | l => PList l
  end.

(** The sample [log_train_epoch_end_metrics] looks at to decide whether
    the epoch output holds structured results, when there is one. *)
Definition first_sample {legacy_dict : Type} (opt_idx_outputs : list (eval_results_t legacy_dict))
  : option (eval_item legacy_dict) :=
  match opt_idx_outputs with
  | EList (sample_obj :: _) :: _ => Some sample_obj
  | EItem sample_obj :: _ => Some sample_obj
  | _ => None
  end.

(** The calls of [capture_logging] for a run of hooks, one after the
    other: [models] gives the model as it stands at each call. *)
Fixpoint capture_logging_each (models : list LightningModule)
    (_cached_results : gmap string EpochLoopResult.t)
  : outcome (gmap string EpochLoopResult.t) :=
  match models with
  | [] => Return _cached_results
  | model_ref :: models' =>
      obind (capture_logging model_ref _cached_results) (capture_logging_each models')
  end.

(** [self._cached_results[stage]._internals[hook_name]._internals[dataloader_idx]],
    the empty list where a key is missing. *)
Definition cached_results_of (_cached_results : gmap string EpochLoopResult.t)
    (stage hook_name : string) (dataloader_idx : Z) : list Result :=
  match _cached_results !! stage with
  | Some e => EpochLoopResult.cached e hook_name dataloader_idx
  | None => []
  end.

(** The results that the models of a run hold for a hook name. *)
Definition results_for (hook_name : string) (models : list LightningModule) : list Result :=
  _results <$> List.filter (fun m => String.eqb (_current_hook_fx_name m) hook_name) models.

(** * Properties *)

Arguments str_in : simpl never.
Arguments __stages : simpl never.
Arguments attr_of : simpl never.

(** ** The stage lookup *)

Lemma stages_sorted : __stages = ["all"; "test"; "train"; "validation"].
Proof. reflexivity. Qed.

(** Membership in a list of string literals. *)
Ltac str_list :=
  repeat match goal with
         | H : _ ∈ _ |- _ => apply list_elem_of_In in H; simpl in H
         end;
  try apply list_elem_of_In; simpl; intuition (discriminate || congruence).

Lemma str_in_spec (x : string) (l : list string) : str_in x l = true <-> x ∈ l.
Proof.
  unfold str_in. rewrite existsb_exists. split.
  - intros (y & Hin & Heq). apply String.eqb_eq in Heq. subst.
    by apply list_elem_of_In.
  - intros Hin. exists x. split; [by apply list_elem_of_In | apply String.eqb_refl].
Qed.

(** A stage token resolves to itself. *)
Lemma determine_stage_token (stage : string) (s : state) :
  stage ∈ ["test"; "train"; "validation"] ->
  _determine_stage (AStr stage) s = (Return stage, s).
Proof.
  intros Hin. unfold _determine_stage. cbn [str].
  replace (str_in stage (drop_first __stages)) with true; [done |].
  symmetry. by apply str_in_spec.
Qed.

(** ["0"] and ["True"] resolve to the test stage. *)
Lemma determine_stage_test_flags (s : state) :
  _determine_stage (AStr "0") s = (Return (LoggerStages_value TEST), s) /\
  _determine_stage (AStr "True") s = (Return (LoggerStages_value TEST), s) /\
  _determine_stage (ABool true) s = (Return (LoggerStages_value TEST), s).
Proof. done. Qed.

(** Outside the two tables the lookup raises. *)
Lemma determine_stage_other (x : stage_or_testing) (s : state) :
  str x ∉ ["test"; "train"; "validation"; "0"; "1"; "True"; "False"] ->
  exists msg, _determine_stage x s = (Raise (MisconfigurationException msg), s).
Proof.
  intros Hnot. unfold _determine_stage.
  destruct (str_in (str x) (drop_first __stages)) eqn:Hs.
  { apply str_in_spec in Hs. exfalso. apply Hnot.
    change (drop_first __stages) with ["test"; "train"; "validation"] in Hs. str_list. }
  destruct (assoc (str x) __lookup_stages) eqn:Ha; [| by eexists].
  exfalso. apply Hnot. unfold __lookup_stages in Ha. cbn [assoc] in Ha.
  repeat match type of Ha with
         | (if String.eqb ?a ?b then _ else _) = _ =>
             destruct (String.eqb_spec a b) as [->|]; [str_list |]
         end.
  discriminate.
Qed.

(** C4: [_determine_stage] answers ["val"] for the flags [False] and ["1"];
    ["val"] is the value of no member of [LoggerStages] (the validation
    stage is ["validation"]), and [split_idx_manager] raises [KeyError] on
    it. *)
Theorem determine_stage_false_is_val (s : state) (split_idx : Z) :
  _determine_stage (ABool false) s = (Return "val", s) /\
  _determine_stage (AStr "False") s = (Return "val", s) /\
  _determine_stage (AStr "1") s = (Return "val", s) /\
  ("val" ∉ (LoggerStages_value <$> LoggerStages_members)) /\
  "val" <> LoggerStages_value VAL /\
  fst (split_idx_manager (ABool false) split_idx s) = Raise (KeyError "val").
Proof.
  repeat split; try done.
  cbn. intros Hin. str_list.
Qed.

(** ** The split-index scope *)

Lemma attr_of_insert (m : gmap string attr) (stage : string) (a : attr) :
  attr_of (<[stage := a]> m) stage = a.
Proof. unfold attr_of. by rewrite lookup_insert_eq. Qed.

Lemma attr_of_insert_ne (m : gmap string attr) (stage other : string) (a : attr) :
  other <> stage -> attr_of (<[stage := a]> m) other = attr_of m other.
Proof. intros Hne. unfold attr_of. by rewrite lookup_insert_ne. Qed.

(** What [split_idx_manager] leaves behind when it returns: the manager is
    one of the three built by [__init__], and holds the index. *)
Lemma split_idx_manager_returns (x : stage_or_testing) (split_idx : Z) (s s1 : state)
    (stage : string) :
  split_idx_manager x split_idx s = (Return stage, s1) ->
  str_in stage (drop_first __stages) = true /\
  attr_of (manager_split_idx s1) stage = IsInt split_idx /\
  cached_split_idx s1 = cached_split_idx s /\
  cached__split_idx s1 = cached__split_idx s /\
  _current_stage s1 = Some stage.
Proof.
  unfold split_idx_manager, bind.
  destruct (_determine_stage x s) as [[stage' | e] s'] eqn:Hd; [| discriminate].
  assert (s' = s) as ->.
  { unfold _determine_stage, ret, raise in Hd.
    repeat (case_match; simplify_eq); done. }
  unfold modify, _split_idx_manager_key.
  destruct (str_in stage' (drop_first __stages)) eqn:Hin; cbn; [| discriminate].
  intros [= <- <-]. cbn. by rewrite attr_of_insert.
Qed.

Lemma split_idx_manager_token (stage : string) (split_idx : Z) (s : state) :
  stage ∈ ["test"; "train"; "validation"] ->
  exists s1, split_idx_manager (AStr stage) split_idx s = (Return stage, s1).
Proof.
  intros Hin. unfold split_idx_manager, bind.
  rewrite determine_stage_token by done. cbn.
  unfold _split_idx_manager_key.
  replace (str_in stage (drop_first __stages)) with true
    by (symmetry; by apply str_in_spec).
  cbn. by eexists.
Qed.

Lemma stage_is_cached (stage : string) :
  str_in stage (drop_first __stages) = true -> str_in stage __stages = true.
Proof.
  rewrite !str_in_spec. change (drop_first __stages) with ["test"; "train"; "validation"].
  rewrite stages_sorted. intros Hin. by apply list_elem_of_further.
Qed.

(** The scope runs the body in the state [__enter__] leaves and clears the
    index in the state the body leaves. *)
Lemma with_run {A} (stage : string) (body : M A) (s1 s2 : state) :
  BatchSplitIdxManager.__enter__ stage s1 = (Return tt, s2) ->
  str_in stage __stages = true ->
  BatchSplitIdxManager.with_ stage body s1
  = ((body s2).1,
     set_cached_split_idx (<[stage := IsNone]> (cached_split_idx (body s2).2)) (body s2).2).
Proof.
  intros Henter Hin. unfold BatchSplitIdxManager.with_, bind. rewrite Henter.
  destruct (body s2) as [o s3]. unfold BatchSplitIdxManager.__exit__, bind, modify,
    _cached_results_key.
  rewrite Hin. done.
Qed.

(** C10: for each of the three stages [split_idx_manager] returns that
    stage's manager; whenever it returns one, entering the scope sets the
    stage's cached split index ([_cached_results[stage].split_idx]) to
    the given value and leaves the other stages' alone, as well as the
    attribute [_split_idx] that [cache_result] reads; when the scope is
    left the stage's cached split index is [None] again, whether the body
    returned or raised; what the body returned or raised is what the scope
    returns or raises. *)
Theorem split_idx_scope (x : stage_or_testing) (split_idx : Z) (s : state) :
  (str x ∈ ["test"; "train"; "validation"] ->
   exists s1, split_idx_manager x split_idx s = (Return (str x), s1)) /\
  (forall (stage : string) (s1 : state),
     split_idx_manager x split_idx s = (Return stage, s1) ->
     exists s2,
       BatchSplitIdxManager.__enter__ stage s1 = (Return tt, s2) /\
       attr_of (cached_split_idx s2) stage = IsInt split_idx /\
       (forall other, other <> stage ->
          attr_of (cached_split_idx s2) other = attr_of (cached_split_idx s) other) /\
       cached__split_idx s2 = cached__split_idx s /\
       forall (A : Type) (body : M A),
         let after := BatchSplitIdxManager.with_ stage body s1 in
         fst after = fst (body s2) /\
         attr_of (cached_split_idx (snd after)) stage = IsNone /\
         (forall other, other <> stage ->
            attr_of (cached_split_idx (snd after)) other
            = attr_of (cached_split_idx (snd (body s2))) other)).
Proof.
  split.
  { intros Hin. destruct x as [stage | b].
    - by apply split_idx_manager_token.
    - exfalso. destruct b; cbn in Hin; str_list. }
  intros stage s1 Hm.
  apply split_idx_manager_returns in Hm as (Hin & Hidx & Hcached & Hunder & _).
  pose proof (stage_is_cached _ Hin) as Hin'.
  assert (BatchSplitIdxManager.__enter__ stage s1
          = (Return tt,
             set_cached_split_idx (<[stage := IsInt split_idx]> (cached_split_idx s1))
               (set_trainer_split_idx (IsInt split_idx) s1))) as Henter.
  { unfold BatchSplitIdxManager.__enter__, BatchSplitIdxManager.self_split_idx,
      bind, get, modify, _cached_results_key.
    rewrite Hidx. cbn. rewrite Hidx, Hin'. done. }
  eexists. split; [exact Henter |]. cbn [cached_split_idx set_cached_split_idx].
  split; [apply attr_of_insert |].
  split; [intros other Hne; rewrite <- Hcached; by apply attr_of_insert_ne |].
  split; [exact Hunder |].
  intros A body. rewrite (with_run _ _ _ _ Henter Hin'). cbn.
  split; [done |]. split; [apply attr_of_insert |].
  intros other Hne. by apply attr_of_insert_ne.
Qed.

(** The scope on a fresh connector, around a body that raises. *)
Lemma split_idx_scope_witness :
  let s := __init__ false false true false false false true 0 0 false in
  let s1 := snd (split_idx_manager (AStr "train") 3 s) in
  fst (BatchSplitIdxManager.with_ "train" (raise ValueError : M unit) s1) = Raise ValueError /\
  attr_of (cached_split_idx
             (snd (BatchSplitIdxManager.with_ "train" (raise ValueError : M unit) s1)))
    "train" = IsNone.
Proof.
  intros s s1.
  destruct (split_idx_scope (AStr "train") 3 s) as [_ H].
  destruct (H "train" s1 eq_refl) as (s2 & _ & _ & _ & _ & Hbody).
  destruct (Hbody unit (raise ValueError)) as (Hout & Hnone & _).
  split; [exact Hout | exact Hnone].
Defined.

(** ** The logging methods *)

Section ConnectorProperties.

#[local] Set Default Proof Using "Type".

Variable legacy_dict : Type.
Variable dict_len : legacy_dict -> nat.
Variable item : tensor -> outcome value.
Variable metrics_to_scalars : dict -> outcome dict.
Variable get_memory_profile : state -> dict.
Variable flatten_dict : eval_item legacy_dict -> outcome dict.
Variable process_dict_result :
  eval_item legacy_dict -> outcome (dict * dict * dict).
Variable cached_metrics_get_as_list :
  stage_or_testing -> string -> string -> state -> outcome (list dict).
Variable cached_metrics_get_as_dict :
  stage_or_testing -> string -> string -> state -> outcome dict.
Variable reduce_on_epoch_end : list Result -> outcome Result.
Variable reduce_across_time : eval_results_t legacy_dict -> outcome Result.
Variable gather : eval_results_t legacy_dict -> outcome Result.
Variable padded_gather : list Result -> outcome Result.
Variable is_overridden_training_epoch_end : bool.
Variable automatic_optimization : bool.
Variable model_training_epoch_end :
  hook_input legacy_dict -> outcome (eval_item legacy_dict * Result).

Local Abbreviation log_metrics_ := (log_metrics metrics_to_scalars get_memory_profile).
Local Abbreviation log_training_step_metrics_ :=
  (log_training_step_metrics item cached_metrics_get_as_dict).
Local Abbreviation log_train_epoch_end_metrics_ :=
  (log_train_epoch_end_metrics legacy_dict dict_len item metrics_to_scalars
     get_memory_profile process_dict_result cached_metrics_get_as_dict
     reduce_on_epoch_end reduce_across_time gather padded_gather
     is_overridden_training_epoch_end automatic_optimization
     model_training_epoch_end).
Local Abbreviation _track_callback_metrics_ :=
  (_track_callback_metrics legacy_dict dict_len flatten_dict).
Local Abbreviation _track_callback_metrics_1_0_ :=
  (_track_callback_metrics_1_0 item reduce_on_epoch_end).
Local Abbreviation __process_eval_epoch_end_results_and_log_legacy_ :=
  (__process_eval_epoch_end_results_and_log_legacy legacy_dict dict_len item
     metrics_to_scalars get_memory_profile process_dict_result).
Local Abbreviation before_on_evaluation_epoch_end_ :=
  (before_on_evaluation_epoch_end legacy_dict dict_len item metrics_to_scalars
     get_memory_profile flatten_dict process_dict_result
     cached_metrics_get_as_list reduce_on_epoch_end).

(** *** The training step end *)

Lemma call_on_global_raises (name method : string) (s : state) :
  name ∉ module_globals ->
  call_on_global name method s = (Raise (NameError name), s).
Proof.
  intros Hnot. unfold call_on_global.
  destruct (str_in name module_globals) eqn:Hin; [| done].
  apply str_in_spec in Hin. done.
Qed.

(** C1: [log_training_step_metrics] raises [NameError] on every step
    output, at the first of the names [callback_metrics] and
    [batch_log_metrics] it reads, which no statement of the module binds;
    it leaves the connector as it was and merges nothing. *)
Theorem log_training_step_metrics_raises (output : training_step_output) (s : state) :
  log_training_step_metrics_ output s
  = (Raise (NameError match output with
                      | StructuredOutput _ => "callback_metrics"
                      | LegacyOutput _ _ => "batch_log_metrics"
                      end), s).
Proof.
  unfold log_training_step_metrics, bind.
  destruct output as [r | log pbar].
  - rewrite call_on_global_raises; [done |].
    intros Hin. apply str_in_spec in Hin. discriminate.
  - cbn. rewrite call_on_global_raises; [done |].
    intros Hin. apply str_in_spec in Hin. discriminate.
Qed.

(** *** The training epoch end *)

(** C5: with an empty epoch output, [log_train_epoch_end_metrics] raises
    [IndexError]: [epoch_output[0]] is evaluated before the [try] that
    would catch it. *)
Theorem log_train_epoch_end_metrics_empty_raises (checkpoint_accumulator
    early_stopping_accumulator : accumulator) (num_optimizers : Z) (s : state) :
  log_train_epoch_end_metrics_ [] checkpoint_accumulator early_stopping_accumulator
    num_optimizers s
  = (Raise IndexError, s).
Proof. reflexivity. Qed.

(** When the first optimizer has no training step, or its first training
    step is an empty list, the [IndexError] is caught; a model that does
    not override [training_epoch_end] then goes through the legacy path
    and only the accumulated callback values are merged. *)
Lemma log_train_epoch_end_metrics_no_steps (first : list (eval_results_t legacy_dict))
    (rest : list (list (eval_results_t legacy_dict)))
    (checkpoint_accumulator early_stopping_accumulator : accumulator)
    (num_optimizers : Z) (s : state) :
  is_overridden_training_epoch_end = false ->
  first = [] \/ (exists steps, first = EList [] :: steps) ->
  log_train_epoch_end_metrics_ (first :: rest) checkpoint_accumulator
    early_stopping_accumulator num_optimizers s
  = (Return tt,
     set_callback_metrics
       (update (callback_metrics s)
          (accumulated_callback_metrics checkpoint_accumulator
             early_stopping_accumulator)) s).
Proof.
  intros Hno Hfirst.
  unfold log_train_epoch_end_metrics, __run_legacy_training_epoch_end,
    accumulated_callback_metrics.
  rewrite Hno.
  destruct Hfirst as [-> | [steps ->]];
    destruct (0 <? num_values checkpoint_accumulator),
      (0 <? num_values early_stopping_accumulator); reflexivity.
Qed.

(** *** Reading the evaluation results *)

Lemma dict_ChainMap_lookup_first (before after : list dict) (m : dict) (key : string)
    (v : value) :
  Forall (fun m' : dict => m' !! key = None) before ->
  m !! key = Some v ->
  dict_ChainMap (before ++ m :: after) !! key = Some v.
Proof.
  induction 1 as [| m' before Hm' _ IH]; intros Hv; cbn.
  - by apply lookup_union_Some_l.
  - rewrite lookup_union_r by done. by apply IH.
Qed.

Lemma dict_ChainMap_lookup_None (maps : list dict) (key : string) :
  Forall (fun m' : dict => m' !! key = None) maps ->
  dict_ChainMap maps !! key = None.
Proof.
  induction 1 as [| m' maps Hm' _ IH]; cbn; [done |].
  by rewrite lookup_union_r.
Qed.

Lemma get_evaluate_epoch_results_testing_run (test_mode : bool) (s : state) :
  testing s = true ->
  (dev_debugger_enabled s = true -> is_Some (callback_metrics s !! "debug_epoch")) ->
  _get_evaluate_epoch_results test_mode s
  = (Return [dict_ChainMap (eval_loop_results s ++ [test_snapshot s])],
     set_eval_loop_results [] s).
Proof.
  intros Htest Hdebug. unfold _get_evaluate_epoch_results, test_snapshot, bind, get.
  rewrite Htest. destruct (dev_debugger_enabled s) eqn:Hd; [| done].
  destruct (Hdebug eq_refl) as [v Hv]. unfold deepcopy. rewrite Hv. done.
Qed.

Lemma get_evaluate_epoch_results_not_testing_run (test_mode : bool) (s : state) :
  testing s = false ->
  _get_evaluate_epoch_results test_mode s
  = (Return (eval_loop_results s), set_eval_loop_results [] s).
Proof.
  intros Htest. unfold _get_evaluate_epoch_results, bind, get. by rewrite Htest.
Qed.

(** With the debugger on and no ["debug_epoch"] key the [pop] raises. *)
Lemma get_evaluate_epoch_results_pop_raises (test_mode : bool) (s : state) :
  testing s = true ->
  dev_debugger_enabled s = true ->
  callback_metrics s !! "debug_epoch" = None ->
  _get_evaluate_epoch_results test_mode s = (Raise (KeyError "debug_epoch"), s).
Proof.
  intros Htest Hd Hnone. unfold _get_evaluate_epoch_results, bind, get, deepcopy.
  by rewrite Htest, Hd, Hnone.
Qed.

(** C2, as the code has it: in test mode (and, with the debugger on, with
    its key in [callback_metrics]) the call returns one mapping, the
    collapse of the accumulated mappings followed by the copy of
    [callback_metrics] without the debug key; for each key the value is
    that of the earliest mapping in this order that has the key, and the
    key is absent when none has it. *)
Theorem get_evaluate_epoch_results_testing (test_mode : bool) (s : state) :
  testing s = true ->
  (dev_debugger_enabled s = true -> is_Some (callback_metrics s !! "debug_epoch")) ->
  exists merged : dict,
    _get_evaluate_epoch_results test_mode s
    = (Return [merged], set_eval_loop_results [] s) /\
    (test_snapshot s !! "debug_epoch" = None \/ dev_debugger_enabled s = false) /\
    (forall key, key <> "debug_epoch" ->
       test_snapshot s !! key = callback_metrics s !! key) /\
    (forall before m after key v,
       eval_loop_results s ++ [test_snapshot s] = before ++ m :: after ->
       Forall (fun m' : dict => m' !! key = None) before ->
       m !! key = Some v ->
       merged !! key = Some v) /\
    (forall key,
       Forall (fun m' : dict => m' !! key = None)
         (eval_loop_results s ++ [test_snapshot s]) ->
       merged !! key = None).
Proof.
  intros Htest Hdebug. eexists. split.
  { by apply get_evaluate_epoch_results_testing_run. }
  split.
  { unfold test_snapshot. destruct (dev_debugger_enabled s); [left | by right].
    apply lookup_delete_eq. }
  split.
  { intros key Hne. unfold test_snapshot, deepcopy.
    destruct (dev_debugger_enabled s); [| done]. by rewrite lookup_delete_ne. }
  split.
  - intros before m after key v -> Hbefore Hm.
    by apply dict_ChainMap_lookup_first.
  - intros key Hall. by apply dict_ChainMap_lookup_None.
Qed.

Lemma get_evaluate_epoch_results_testing_witness :
  exists merged : dict,
    _get_evaluate_epoch_results true testing_state
    = (Return [merged], set_eval_loop_results [] testing_state) /\
    merged !! "acc" = Some (Num (Qmake 9 10)).
Proof.
  destruct (get_evaluate_epoch_results_testing true testing_state eq_refl)
    as (merged & Hrun & _ & _ & Hfirst & _).
  { intros Hd. discriminate Hd. }
  exists merged. split; [exact Hrun |].
  apply (Hfirst [] {[ "acc" := Num (Qmake 9 10) ]} [test_snapshot testing_state]).
  - reflexivity.
  - constructor.
  - apply lookup_singleton_eq.
Defined.

(** C2 as stated fails: on a collision the later mapping does not win. *)
Lemma get_evaluate_epoch_results_later_loses :
  testing testing_state = true /\
  fst (_get_evaluate_epoch_results true testing_state)
  <> Return [merge_later_wins
               (eval_loop_results testing_state
                ++ [deepcopy (callback_metrics testing_state)])].
Proof.
  split; [reflexivity |].
  rewrite get_evaluate_epoch_results_testing_run; [| reflexivity | discriminate].
  cbn [fst]. intros Heq.
  apply (f_equal (fun o : outcome (list dict) =>
                    match o with
                    | Return [m] => m !! "acc"
                    | _ => None
                    end)) in Heq.
  vm_compute in Heq. discriminate Heq.
Qed.

(** Whenever the call returns, the list is empty afterwards and nothing
    else has changed. *)
Lemma get_evaluate_epoch_results_clears (test_mode : bool) (s s' : state)
    (results : list dict) :
  _get_evaluate_epoch_results test_mode s = (Return results, s') ->
  s' = set_eval_loop_results [] s.
Proof.
  destruct (testing s) eqn:Htest.
  - destruct (dev_debugger_enabled s) eqn:Hd.
    + destruct (callback_metrics s !! "debug_epoch") eqn:Hk.
      * rewrite get_evaluate_epoch_results_testing_run by (rewrite ?Hk; eauto).
        congruence.
      * rewrite get_evaluate_epoch_results_pop_raises by done. discriminate.
    + rewrite get_evaluate_epoch_results_testing_run by (done || congruence).
      congruence.
  - rewrite get_evaluate_epoch_results_not_testing_run by done. congruence.
Qed.

(** C3, as the code has it: every call that returns leaves
    [eval_loop_results] empty, whatever the mode.  Outside test mode a
    call on a non-empty list returns that list and the next call returns
    the empty list.  In test mode the first call returns one mapping and
    so does the next one: the copy of [callback_metrics] it has just
    appended. *)
Theorem get_evaluate_epoch_results_drain (test_mode test_mode' : bool) (s : state) :
  (forall results s',
     _get_evaluate_epoch_results test_mode s = (Return results, s') ->
     eval_loop_results s' = []) /\
  (testing s = false ->
   eval_loop_results s <> [] ->
   exists results s',
     _get_evaluate_epoch_results test_mode s = (Return results, s') /\
     results <> [] /\
     _get_evaluate_epoch_results test_mode' s' = (Return [], s')) /\
  (testing s = true ->
   forall results s',
     _get_evaluate_epoch_results test_mode s = (Return results, s') ->
     length results = 1%nat /\
     _get_evaluate_epoch_results test_mode' s' = (Return [test_snapshot s], s')).
Proof.
  split; [| split].
  - intros results s' Hrun. apply get_evaluate_epoch_results_clears in Hrun.
    by subst.
  - intros Htest Hne. exists (eval_loop_results s), (set_eval_loop_results [] s).
    split; [by apply get_evaluate_epoch_results_not_testing_run |].
    split; [done |].
    by rewrite get_evaluate_epoch_results_not_testing_run.
  - intros Htest results s' Hrun.
    pose proof (get_evaluate_epoch_results_clears _ _ _ _ Hrun) as ->.
    assert (dev_debugger_enabled s = true ->
            is_Some (callback_metrics s !! "debug_epoch")) as Hdebug.
    { intros Hd. destruct (callback_metrics s !! "debug_epoch") eqn:Hk; [eauto |].
      rewrite get_evaluate_epoch_results_pop_raises in Hrun by done. discriminate. }
    rewrite get_evaluate_epoch_results_testing_run in Hrun by done.
    injection Hrun as <-. split; [done |].
    rewrite get_evaluate_epoch_results_testing_run by done.
    cbn. unfold test_snapshot. cbn.
    by rewrite (right_id_L ∅ (∪)).
Qed.

Lemma get_evaluate_epoch_results_drain_witness :
  let s := set_eval_loop_results [{[ "acc" := Num (Qmake 9 10) ]}]
             (__init__ false false true false false false true 0 0 false) in
  exists results s',
    _get_evaluate_epoch_results false s = (Return results, s') /\
    results <> [] /\
    _get_evaluate_epoch_results false s' = (Return [], s').
Proof.
  intros s.
  destruct (get_evaluate_epoch_results_drain false false s) as (_ & Hnot & _).
  apply Hnot; [reflexivity | discriminate].
Defined.

(** C3 as stated fails in test mode: the second call in a row returns a
    mapping again, and not an empty one. *)
Lemma get_evaluate_epoch_results_second_not_empty :
  eval_loop_results testing_state <> [] /\
  exists results s',
    _get_evaluate_epoch_results true testing_state = (Return results, s') /\
    results <> [] /\
    exists m : dict,
      fst (_get_evaluate_epoch_results true s') = Return [m] /\
      m !! "acc" = Some (Num (Qmake 7 10)).
Proof.
  split; [discriminate |].
  eexists _, _. split; [reflexivity |]. split; [discriminate |].
  eexists. split; [reflexivity |]. vm_compute. reflexivity.
Qed.

(** *** [log_metrics] *)

Lemma log_metrics_run (metrics grad_norm_dic : dict) (step : option value) (s : state)
    (metrics' scalar_metrics : dict) (step' : value) :
  scalar_metrics_and_step metrics_to_scalars get_memory_profile s metrics
    grad_norm_dic step = Return (metrics', scalar_metrics, step') ->
  log_metrics_ metrics grad_norm_dic step s
  = (Return metrics',
     if has_logger s then
       set_logged_metrics (update (logged_metrics s) scalar_metrics)
         (if is_global_zero s
          then set_backend (backend_calls s ++ [BackendCall scalar_metrics step'])
                 (S (backend_saves s)) s
          else s)
     else s).
Proof.
  intros Hsc. unfold log_metrics, bind, get, lift. rewrite Hsc.
  destruct (has_logger s), (is_global_zero s); reflexivity.
Qed.

Lemma update_lookup (d other : dict) (key : string) :
  update d other !! key
  = match other !! key with
    | Some v => Some v
    | None => d !! key
    end.
Proof.
  unfold update. destruct (other !! key) as [v |] eqn:Hk.
  - by apply lookup_union_Some_l.
  - by apply lookup_union_r.
Qed.

(** C7, as the code has it: when the trainer has a logger, a call of
    [log_metrics] that returns has merged its scalar metrics into
    [logged_metrics], on every rank: their keys hold the new values and
    the other keys keep theirs, so that after a second call a key holds
    the value of the later call that logged it; the backend receives the
    call, and one [save], on rank zero only.  When the trainer has no
    logger, nothing is recorded and nothing is forwarded. *)
Theorem log_metrics_records (metrics grad_norm_dic : dict) (step : option value)
    (s : state) (metrics' scalar_metrics : dict) (step' : value) :
  scalar_metrics_and_step metrics_to_scalars get_memory_profile s metrics
    grad_norm_dic step = Return (metrics', scalar_metrics, step') ->
  let s' := snd (log_metrics_ metrics grad_norm_dic step s) in
  fst (log_metrics_ metrics grad_norm_dic step s) = Return metrics' /\
  (has_logger s = true ->
     (forall key, logged_metrics s' !! key
                  = match scalar_metrics !! key with
                    | Some v => Some v
                    | None => logged_metrics s !! key
                    end) /\
     (is_global_zero s = true ->
        backend_calls s' = backend_calls s ++ [BackendCall scalar_metrics step'] /\
        backend_saves s' = S (backend_saves s)) /\
     (is_global_zero s = false ->
        backend_calls s' = backend_calls s /\ backend_saves s' = backend_saves s) /\
     (forall (metrics2 grad_norm_dic2 : dict) (step2 : option value)
             (metrics2' scalar_metrics2 : dict) (step2' : value),
        scalar_metrics_and_step metrics_to_scalars get_memory_profile s' metrics2
          grad_norm_dic2 step2 = Return (metrics2', scalar_metrics2, step2') ->
        forall key,
          logged_metrics (snd (log_metrics_ metrics2 grad_norm_dic2 step2 s')) !! key
          = match scalar_metrics2 !! key with
            | Some v => Some v
            | None => match scalar_metrics !! key with
                      | Some v => Some v
                      | None => logged_metrics s !! key
                      end
            end)) /\
  (has_logger s = false -> s' = s).
Proof.
  intros Hsc s'. subst s'. rewrite (log_metrics_run _ _ _ _ _ _ _ Hsc). cbn [fst snd].
  split; [done |]. split.
  - intros Hl. rewrite Hl. split.
    { intros key. destruct (is_global_zero s); cbn; apply update_lookup. }
    split; [intros ->; done |]. split; [intros ->; done |].
    intros metrics2 grad2 step2 metrics2' scalar2 step2' Hsc2 key.
    rewrite (log_metrics_run _ _ _ _ _ _ _ Hsc2).
    destruct (is_global_zero s) eqn:Hz; cbn; rewrite Hl, ?Hz; cbn;
      by rewrite !update_lookup.
  - intros ->. done.
Qed.

(** *** The evaluation epoch end under the sanity check *)

Lemma only_callback_metrics_refl (s : state) : only_callback_metrics s s.
Proof. by destruct s. Qed.

Lemma only_callback_metrics_trans (s1 s2 s3 : state) :
  only_callback_metrics s1 s2 -> only_callback_metrics s2 s3 ->
  only_callback_metrics s1 s3.
Proof.
  unfold only_callback_metrics. intros H12 H23. rewrite H23 at 1. rewrite H12 at 1.
  reflexivity.
Qed.

Lemma touches_bind {A B} (c : M A) (k : A -> M B) :
  touches_callback_metrics_only c ->
  (forall a, touches_callback_metrics_only (k a)) ->
  touches_callback_metrics_only (bind c k).
Proof.
  intros Hc Hk s. unfold bind. specialize (Hc s).
  destruct (c s) as [[a | e] s1]; cbn in *; [| done].
  eapply only_callback_metrics_trans; [exact Hc | apply Hk].
Qed.

Lemma touches_ret {A} (a : A) : touches_callback_metrics_only (ret a).
Proof. intros s. apply only_callback_metrics_refl. Qed.

Lemma touches_raise {A} (e : exn) : touches_callback_metrics_only (raise e : M A).
Proof. intros s. apply only_callback_metrics_refl. Qed.

Lemma touches_lift {A} (o : outcome A) : touches_callback_metrics_only (lift o).
Proof. intros s. apply only_callback_metrics_refl. Qed.

Lemma touches_callback_metrics_update (m : dict) :
  touches_callback_metrics_only (callback_metrics_update m).
Proof. intros s. by destruct s. Qed.

Lemma touches_for_each {A} (l : list A) (body : A -> M unit) :
  (forall x, touches_callback_metrics_only (body x)) ->
  touches_callback_metrics_only (for_each l body).
Proof.
  intros Hbody. induction l as [| x l IH]; cbn [for_each].
  - apply touches_ret.
  - apply touches_bind; [apply Hbody | intros _; exact IH].
Qed.

Lemma touches_track_legacy_list (l : list (eval_item legacy_dict)) (flat : option dict) :
  touches_callback_metrics_only (track_legacy_list legacy_dict flatten_dict l flat).
Proof.
  revert flat. induction l as [| x l IH]; intros flat; cbn [track_legacy_list].
  - apply touches_ret.
  - apply touches_bind.
    + destruct x; try apply touches_ret;
        (apply touches_bind; [apply touches_lift | intros f; apply touches_ret]).
    + intros [f |]; [| apply touches_raise].
      apply touches_bind; [apply touches_callback_metrics_update | intros _; apply IH].
Qed.

(** [_track_callback_metrics] writes to [callback_metrics] only. *)
Lemma touches_track_callback_metrics (eval_results : eval_results_t legacy_dict)
    (using_eval_result : bool) :
  touches_callback_metrics_only (_track_callback_metrics_ eval_results using_eval_result).
Proof.
  unfold _track_callback_metrics.
  apply touches_bind; [apply touches_lift | intros n].
  apply touches_bind.
  { destruct (0 <? n)%nat; [| apply touches_ret].
    apply touches_bind; [apply touches_lift | intros x; apply touches_ret]. }
  intros [|]; [apply touches_ret |].
  destruct using_eval_result, eval_results as [l | e].
  - apply touches_for_each. intros x.
    apply touches_bind; [apply touches_lift | apply touches_callback_metrics_update].
  - apply touches_bind; [apply touches_lift | apply touches_callback_metrics_update].
  - apply touches_track_legacy_list.
  - apply touches_bind; [| intros flat; apply touches_callback_metrics_update].
    destruct e; apply touches_lift.
Qed.

Lemma track_callback_metrics_1_0_sanity (logs : Result) (metrics_to_log : list dict)
    (reduce_on_epoch : bool) (s : state) :
  running_sanity_check s = true ->
  _track_callback_metrics_1_0_ logs metrics_to_log reduce_on_epoch s
  = (Return metrics_to_log, set_step_metrics [] s).
Proof.
  intros Hs. unfold _track_callback_metrics_1_0, bind, gets, modify, get. cbn.
  by rewrite Hs.
Qed.

Lemma process_eval_epoch_end_sanity (eval_results : eval_results_t legacy_dict)
    (test_mode : bool) (s : state) :
  running_sanity_check s = true ->
  __process_eval_epoch_end_results_and_log_legacy_ eval_results test_mode s
  = (Return tt, s).
Proof.
  intros Hs. unfold __process_eval_epoch_end_results_and_log_legacy, bind, get.
  by rewrite Hs.
Qed.

(** C9, as the code has it: while the sanity check runs,
    [_track_callback_metrics_1_0] returns after it has emptied the
    evaluation loop's step metrics and touches nothing else, and
    [__process_eval_epoch_end_results_and_log_legacy] touches nothing.
    [before_on_evaluation_epoch_end] then leaves [logged_metrics],
    [progress_bar_metrics], [eval_loop_results] and the backend as they
    were; [callback_metrics] is what [_track_callback_metrics], which
    does not look at the flag, makes of it.  The step metrics are emptied
    when [_track_callback_metrics] and the accessor [cached_metrics] both
    return, and the call then returns; when one of them raises, the
    exception is passed on and the step metrics are as they were. *)
Theorem before_on_evaluation_epoch_end_sanity (eval_results : eval_results_t legacy_dict)
    (epoch_logs : Result) (using_eval_result test_mode : bool)
    (metrics_to_log : list dict) (s : state) :
  running_sanity_check s = true ->
  _track_callback_metrics_1_0_ epoch_logs metrics_to_log true s
  = (Return metrics_to_log, set_step_metrics [] s) /\
  __process_eval_epoch_end_results_and_log_legacy_ eval_results test_mode s
  = (Return tt, s) /\
  let run := before_on_evaluation_epoch_end_ eval_results epoch_logs
               using_eval_result test_mode s in
  let s' := snd run in
  logged_metrics s' = logged_metrics s /\
  progress_bar_metrics s' = progress_bar_metrics s /\
  eval_loop_results s' = eval_loop_results s /\
  backend_calls s' = backend_calls s /\
  backend_saves s' = backend_saves s /\
  callback_metrics s'
  = callback_metrics (snd (_track_callback_metrics_ eval_results using_eval_result s)) /\
  let tracked := _track_callback_metrics_ eval_results using_eval_result s in
  match fst tracked with
  | Return _ =>
      match cached_metrics_get_as_list (ABool (testing (snd tracked)))
              "before_on_batch_start" "epoch_log_metrics" (snd tracked) with
      | Return _ => fst run = Return tt /\ step_metrics s' = []
      | Raise e => fst run = Raise e /\ step_metrics s' = step_metrics s
      end
  | Raise e => fst run = Raise e /\ step_metrics s' = step_metrics s
  end.
Proof.
  intros Hs.
  split; [by apply track_callback_metrics_1_0_sanity |].
  split; [by apply process_eval_epoch_end_sanity |].
  cbv zeta. unfold before_on_evaluation_epoch_end, bind, get, lift.
  pose proof (touches_track_callback_metrics eval_results using_eval_result s) as Ht.
  destruct (_track_callback_metrics_ eval_results using_eval_result s) as [o s1].
  cbn [fst snd] in *. unfold only_callback_metrics in Ht.
  assert (running_sanity_check s1 = true) as Hs1 by (rewrite Ht; exact Hs).
  assert (logged_metrics s1 = logged_metrics s /\
          progress_bar_metrics s1 = progress_bar_metrics s /\
          eval_loop_results s1 = eval_loop_results s /\
          backend_calls s1 = backend_calls s /\
          backend_saves s1 = backend_saves s /\
          step_metrics s1 = step_metrics s) as Hframe by (rewrite Ht; done).
  destruct Hframe as (H1 & H2 & H3 & H4 & H5 & H6).
  destruct o as [[] | e]; [| cbn; by split_and!].
  destruct (cached_metrics_get_as_list _ _ _ s1) as [l | e]; [| cbn; by split_and!].
  rewrite track_callback_metrics_1_0_sanity by exact Hs1.
  rewrite process_eval_epoch_end_sanity by exact Hs1.
  cbn. by split_and!.
Qed.

(** *** The legacy flattening *)







End ConnectorProperties.

(** ** The methods on concrete collaborators *)

Lemma log_metrics_records_witness :
  let s := __init__ false false false false false false true 3 7 false in
  let s' := snd (log_metrics Return (fun _ => ∅) {[ "loss" := Num (Qmake 1 2) ]} ∅ None s) in
  logged_metrics s' !! "loss" = Some (Num (Qmake 1 2)) /\
  logged_metrics s' !! "epoch" = Some (Int 3) /\
  backend_calls s' = [].
Proof.
  intros s s'.
  edestruct (log_metrics_records Return (fun _ => ∅) {[ "loss" := Num (Qmake 1 2) ]} ∅ None s)
    as (_ & Hlogger & _); [reflexivity |].
  destruct (Hlogger eq_refl) as (Hkey & _ & Hrank & _).
  split; [exact (eq_trans (Hkey "loss") eq_refl) |].
  split; [exact (eq_trans (Hkey "epoch") eq_refl) |].
  destruct (Hrank eq_refl) as [Hcalls _]. exact Hcalls.
Defined.

(** C7 as stated fails: without a logger a call records nothing in
    [logged_metrics]. *)
Lemma log_metrics_without_logger :
  let s := __init__ false false true false false false false 3 7 false in
  let run := log_metrics Return (fun _ => ∅) {[ "loss" := Num (Qmake 1 2) ]} ∅ None s in
  fst run = Return {[ "loss" := Num (Qmake 1 2) ]} /\
  logged_metrics (snd run) !! "loss" = None /\
  logged_metrics (snd run) = ∅.
Proof. vm_compute. repeat split. Qed.

Lemma before_on_evaluation_epoch_end_sanity_witness :
  _track_callback_metrics_1_0 example_item example_reduce_on_epoch_end example_Result [] true
    sanity_state
  = (Return [], set_step_metrics [] sanity_state) /\
  __process_eval_epoch_end_results_and_log_legacy dict size example_item Return
    (fun _ => ∅) example_process_dict_result (EList [IResult example_Result]) false
    sanity_state
  = (Return tt, sanity_state) /\
  step_metrics
    (snd (before_on_evaluation_epoch_end dict size example_item Return (fun _ => ∅)
            example_flatten_dict example_process_dict_result cached_metrics_empty_list
            example_reduce_on_epoch_end (EList [IResult example_Result]) example_Result
            true false sanity_state))
  = [].
Proof.
  destruct (before_on_evaluation_epoch_end_sanity dict size example_item Return (fun _ => ∅)
              example_flatten_dict example_process_dict_result cached_metrics_empty_list
              example_reduce_on_epoch_end (EList [IResult example_Result]) example_Result
              true false [] sanity_state eq_refl)
    as (H1 & H2 & _ & _ & _ & _ & _ & _ & Hstep).
  split; [exact H1 |]. split; [exact H2 |]. exact (proj2 Hstep).
Defined.

(** C9 as stated fails: during the sanity check
    [before_on_evaluation_epoch_end] merges the callback metrics of a
    structured result into [callback_metrics], whether the accessor
    [cached_metrics] raises or returns, and in the second case the step
    metrics of the evaluation loop are emptied. *)
Lemma before_on_evaluation_epoch_end_sanity_changes :
  let run cached :=
    before_on_evaluation_epoch_end dict size example_item Return (fun _ => ∅)
      example_flatten_dict example_process_dict_result cached
      example_reduce_on_epoch_end (EList [IResult example_Result]) example_Result
      true false sanity_state in
  running_sanity_check sanity_state = true /\
  callback_metrics sanity_state !! "val_acc" = None /\
  step_metrics sanity_state = [[example_Result]] /\
  fst (run cached_metrics_undefined) = Raise (AttributeError "cached_metrics") /\
  callback_metrics (snd (run cached_metrics_undefined)) !! "val_acc"
  = Some (Num (Qmake 9 10)) /\
  fst (run cached_metrics_empty_list) = Return tt /\
  callback_metrics (snd (run cached_metrics_empty_list)) !! "val_acc"
  = Some (Num (Qmake 9 10)) /\
  step_metrics (snd (run cached_metrics_empty_list)) = [].
Proof. vm_compute. repeat split. Qed.



(** ** The per-dataloader snapshot *)






Section Decimal.

Local Open Scope nat_scope.










End Decimal.









(** * Further properties *)

(** ** Stages of hook names *)

Lemma contains_token_false (hook_name : string) :
  _determine_stage_from_hook_name hook_name = "all" ->
  Str.contains "train" hook_name = false /\
  Str.contains "validation" hook_name = false /\
  Str.contains "test" hook_name = false.
Proof.
  unfold _determine_stage_from_hook_name. cbn [LoggerStages_value].
  destruct (Str.contains "train" hook_name); [discriminate |].
  destruct (Str.contains "validation" hook_name); [discriminate |].
  destruct (Str.contains "test" hook_name); [discriminate |]. done.
Qed.

(** X1: the stage of a hook name is always one of the four keys of
    [_cached_results], so subscripting with it never raises; the tokens
    are tried in the order train, validation, test, and the stage is
    ["all"] exactly when the name contains none of them. *)
Theorem hook_name_stage_cached (hook_name : string) :
  let stage := _determine_stage_from_hook_name hook_name in
  (forall s, _cached_results_key stage s = (Return tt, s)) /\
  (Str.contains "train" hook_name = true -> stage = "train") /\
  (Str.contains "train" hook_name = false ->
   Str.contains "validation" hook_name = true -> stage = "validation") /\
  (Str.contains "train" hook_name = false ->
   Str.contains "validation" hook_name = false ->
   Str.contains "test" hook_name = true -> stage = "test") /\
  (stage = "all" <->
   Str.contains "train" hook_name = false /\
   Str.contains "validation" hook_name = false /\
   Str.contains "test" hook_name = false).
Proof.
  cbv zeta. split.
  { intros s. unfold _cached_results_key, _determine_stage_from_hook_name.
    destruct (Str.contains _ hook_name); [done |].
    destruct (Str.contains _ hook_name); [done |].
    destruct (Str.contains _ hook_name); done. }
  unfold _determine_stage_from_hook_name. cbn [LoggerStages_value].
  split; [by intros -> |].
  split; [by intros -> -> |].
  split; [by intros -> -> -> |].
  split; [apply contains_token_false |].
  by intros (-> & -> & ->).
Qed.

(** ** What [split_idx_manager] does on each argument *)

(** X2: [split_idx_manager] returns a manager exactly for the arguments
    that print as ["test"], ["train"], ["validation"], ["0"] or ["True"],
    and then it has recorded the stage and the index and nothing else.  For
    ["1"] and ["False"] it raises [KeyError] after it has set
    [_current_stage] to ["val"]; for any other argument it raises
    [MisconfigurationException] and leaves the connector as it was. *)
Theorem split_idx_manager_outcome (x : stage_or_testing) (split_idx : Z) (s : state) :
  (str x ∈ ["test"; "train"; "validation"] ->
   split_idx_manager x split_idx s
   = (Return (str x),
      set_manager_split_idx (<[str x := IsInt split_idx]> (manager_split_idx s))
        (set__current_stage (Some (str x)) s))) /\
  (str x ∈ ["0"; "True"] ->
   split_idx_manager x split_idx s
   = (Return "test",
      set_manager_split_idx (<["test" := IsInt split_idx]> (manager_split_idx s))
        (set__current_stage (Some "test") s))) /\
  (str x ∈ ["1"; "False"] ->
   split_idx_manager x split_idx s
   = (Raise (KeyError "val"), set__current_stage (Some "val") s)) /\
  (str x ∉ ["test"; "train"; "validation"; "0"; "1"; "True"; "False"] ->
   exists msg,
     split_idx_manager x split_idx s = (Raise (MisconfigurationException msg), s)).
Proof.
  unfold split_idx_manager, bind. repeat split.
  - intros Hin.
    assert (str_in (str x) (drop_first __stages) = true) as Hs by (by apply str_in_spec).
    unfold _determine_stage, _split_idx_manager_key. rewrite Hs. cbn. by rewrite Hs.
  - intros Hin. apply list_elem_of_In in Hin. simpl in Hin.
    unfold _determine_stage.
    destruct Hin as [Heq | [Heq | []]]; rewrite <- Heq; reflexivity.
  - intros Hin. apply list_elem_of_In in Hin. simpl in Hin.
    unfold _determine_stage.
    destruct Hin as [Heq | [Heq | []]]; rewrite <- Heq; reflexivity.
  - intros Hnot. destruct (determine_stage_other x s Hnot) as [msg Hmsg].
    exists msg. by rewrite Hmsg.
Qed.

(** ** The scope and the trainer's index *)

Lemma enter_run (stage : string) (split_idx : Z) (s : state) :
  str_in stage __stages = true ->
  attr_of (manager_split_idx s) stage = IsInt split_idx ->
  BatchSplitIdxManager.__enter__ stage s
  = (Return tt,
     set_cached_split_idx (<[stage := IsInt split_idx]> (cached_split_idx s))
       (set_trainer_split_idx (IsInt split_idx) s)).
Proof.
  intros Hin Hidx.
  unfold BatchSplitIdxManager.__enter__, BatchSplitIdxManager.self_split_idx,
    bind, get, modify, _cached_results_key.
  rewrite Hidx. cbn. by rewrite Hidx, Hin.
Qed.

(** X3: leaving the scope clears the cached index of the stage and not
    [trainer.split_idx]: when the body does not assign it, the trainer
    still holds the index of the region after the region has ended. *)
Theorem scope_keeps_trainer_split_idx (x : stage_or_testing) (split_idx : Z)
    (s s1 : state) (stage : string) (A : Type) (body : M A) :
  split_idx_manager x split_idx s = (Return stage, s1) ->
  preserves trainer_split_idx body ->
  let after := snd (BatchSplitIdxManager.with_ stage body s1) in
  trainer_split_idx after = IsInt split_idx /\
  attr_of (cached_split_idx after) stage = IsNone.
Proof.
  intros Hm Hbody. apply split_idx_manager_returns in Hm as (Hin & Hidx & _).
  pose proof (stage_is_cached _ Hin) as Hin'.
  rewrite (with_run _ _ _ _ (enter_run _ _ _ Hin' Hidx) Hin'). cbn.
  split; [| apply attr_of_insert]. by rewrite Hbody.
Qed.

Lemma scope_keeps_trainer_split_idx_witness :
  let s := __init__ false false true false false false true 0 0 false in
  let s1 := snd (split_idx_manager (AStr "train") 3 s) in
  let after := snd (BatchSplitIdxManager.with_ "train" (ret tt) s1) in
  trainer_split_idx after = IsInt 3 /\
  attr_of (cached_split_idx after) "train" = IsNone.
Proof.
  intros s s1.
  apply (scope_keeps_trainer_split_idx (AStr "train") 3 s s1 "train" unit (ret tt)).
  - reflexivity.
  - intros s0. reflexivity.
Defined.

(** X4: a manager whose [split_idx] was never assigned, as [__init__]
    leaves it, cannot be entered: the scope raises [AttributeError], the
    body does not run and nothing changes. *)
Theorem scope_unassigned_raises (stage : string) (s : state) (A : Type) (body : M A) :
  attr_of (manager_split_idx s) stage = Unset ->
  BatchSplitIdxManager.with_ stage body s = (Raise (AttributeError "split_idx"), s).
Proof.
  intros Hunset.
  unfold BatchSplitIdxManager.with_, BatchSplitIdxManager.__enter__,
    BatchSplitIdxManager.self_split_idx, bind, get.
  by rewrite Hunset.
Qed.

Lemma scope_unassigned_raises_witness :
  let s := __init__ false false true false false false true 0 0 false in
  BatchSplitIdxManager.with_ "train" (callback_metrics_update ∅) s
  = (Raise (AttributeError "split_idx"), s).
Proof.
  intros s. apply (scope_unassigned_raises "train" s unit). reflexivity.
Defined.

(** X5: the scope is not re-entrant.  When a region of a stage is opened
    inside a region of the same stage, the end of the inner region clears
    the cached index, and the rest of the outer region reads [None], not
    the outer index. *)
Theorem scope_nested_same_stage (x : stage_or_testing) (outer inner : Z)
    (s s1 : state) (stage : string) :
  split_idx_manager x outer s = (Return stage, s1) ->
  fst (BatchSplitIdxManager.with_ stage
         (let* stage' := split_idx_manager x inner in
          BatchSplitIdxManager.with_ stage' (ret tt) ;;
          gets (fun s' => attr_of (cached_split_idx s') stage)) s1)
  = Return IsNone.
Proof.
  intros Hm.
  assert (forall s0, exists s0',
            split_idx_manager x inner s0 = (Return stage, s0') /\
            attr_of (manager_split_idx s0') stage = IsInt inner) as Hinner.
  { intros s0. revert Hm. unfold split_idx_manager, bind.
    unfold _determine_stage, ret, raise.
    destruct (str_in (str x) (drop_first __stages)) eqn:Hs.
    - unfold modify, _split_idx_manager_key. cbn. rewrite !Hs. cbn.
      intros [= <- _]. eexists. split; [reflexivity |]. cbn. apply attr_of_insert.
    - destruct (assoc (str x) __lookup_stages) as [st |]; [| discriminate].
      unfold modify, _split_idx_manager_key. cbn.
      destruct (str_in st (drop_first __stages)) eqn:Hst; cbn; [| discriminate].
      intros [= <- _]. eexists. split; [reflexivity |]. cbn. apply attr_of_insert. }
  apply split_idx_manager_returns in Hm as (Hin & Hidx & _).
  pose proof (stage_is_cached _ Hin) as Hin'.
  rewrite (with_run _ _ _ _ (enter_run _ _ _ Hin' Hidx) Hin'). cbn [fst].
  unfold bind at 1.
  destruct (Hinner (set_cached_split_idx (<[stage:=IsInt outer]> (cached_split_idx s1))
                      (set_trainer_split_idx (IsInt outer) s1))) as (s2 & Hrun & Hidx2).
  rewrite Hrun. unfold bind.
  rewrite (with_run _ _ _ _ (enter_run _ _ _ Hin' Hidx2) Hin'). cbn.
  by rewrite attr_of_insert.
Qed.

Lemma scope_nested_same_stage_witness :
  let s := __init__ false false true false false false true 0 0 false in
  let s1 := snd (split_idx_manager (AStr "train") 0 s) in
  fst (BatchSplitIdxManager.with_ "train"
         (let* stage' := split_idx_manager (AStr "train") 1 in
          BatchSplitIdxManager.with_ stage' (ret tt) ;;
          gets (fun s' => attr_of (cached_split_idx s') "train")) s1)
  = Return IsNone.
Proof.
  intros s s1.
  apply (scope_nested_same_stage (AStr "train") 0 1 s s1 "train"). reflexivity.
Defined.

(** ** What the logging methods leave alone *)

Lemma preserves_ret {A B} (f : state -> B) (a : A) : preserves f (ret a).
Proof. by intros s. Qed.

Lemma preserves_raise {A B} (f : state -> B) (e : exn) : preserves f (raise e : M A).
Proof. by intros s. Qed.

Lemma preserves_lift {A B} (f : state -> B) (o : outcome A) : preserves f (lift o).
Proof. by intros s. Qed.

Lemma preserves_get {B} (f : state -> B) : preserves f get.
Proof. by intros s. Qed.

Lemma preserves_gets {A B} (f : state -> B) (g : state -> A) : preserves f (gets g).
Proof. by intros s. Qed.

Lemma preserves_bind {A B C} (f : state -> C) (c : M A) (k : A -> M B) :
  preserves f c -> (forall a, preserves f (k a)) -> preserves f (bind c k).
Proof.
  intros Hc Hk s. unfold bind. specialize (Hc s).
  destruct (c s) as [[a | e] s1]; cbn in *; [| done]. by rewrite Hk.
Qed.

Lemma preserves_modify {B} (f : state -> B) (g : state -> state) :
  (forall s, f (g s) = f s) -> preserves f (modify g).
Proof. intros Hg s. apply Hg. Qed.

Lemma preserves_when {B} (f : state -> B) (b : bool) (c : M unit) :
  preserves f c -> preserves f (when b c).
Proof. intros Hc. destruct b; [done | apply preserves_ret]. Qed.

Lemma preserves_for_each {A B} (f : state -> B) (l : list A) (body : A -> M unit) :
  (forall x, preserves f (body x)) -> preserves f (for_each l body).
Proof.
  intros Hbody. induction l as [| x l IH]; cbn [for_each].
  - apply preserves_ret.
  - apply preserves_bind; [apply Hbody | intros _; exact IH].
Qed.

(** The steps of a proof that a method built from the monad's operations
    leaves a projection of the state alone. *)
Ltac preserves_step :=
  first
    [ apply preserves_ret
    | apply preserves_raise
    | apply preserves_lift
    | apply preserves_get
    | apply preserves_gets
    | apply preserves_when
    | apply preserves_for_each; intros ?
    | apply preserves_modify; intros ?; reflexivity
    | apply preserves_bind; [| intros ?] ].

Section MoreProperties.

#[local] Set Default Proof Using "Type".

Variable legacy_dict : Type.
Variable dict_len : legacy_dict -> nat.
Variable item : tensor -> outcome value.
Variable metrics_to_scalars : dict -> outcome dict.
Variable get_memory_profile : state -> dict.
Variable flatten_dict : eval_item legacy_dict -> outcome dict.
Variable process_dict_result :
  eval_item legacy_dict -> outcome (dict * dict * dict).
Variable cached_metrics_get_as_dict :
  stage_or_testing -> string -> string -> state -> outcome dict.
Variable reduce_on_epoch_end : list Result -> outcome Result.
Variable reduce_across_time : eval_results_t legacy_dict -> outcome Result.
Variable gather : eval_results_t legacy_dict -> outcome Result.
Variable padded_gather : list Result -> outcome Result.
Variable is_overridden_training_epoch_end : bool.
Variable automatic_optimization : bool.
Variable model_training_epoch_end :
  hook_input legacy_dict -> outcome (eval_item legacy_dict * Result).

(** *** [add_progress_bar_metrics] *)

Lemma preserves_add_progress_bar_metrics {B} (f : state -> B) (metrics : dict) :
  (forall m s, f (set_progress_bar_metrics m s) = f s) ->
  preserves f (add_progress_bar_metrics item metrics).
Proof.
  intros Hf. unfold add_progress_bar_metrics.
  apply preserves_for_each. intros [k v].
  apply preserves_bind; [destruct v; preserves_step | intros v'].
  apply preserves_modify. intros s. apply Hf.
Qed.

(** The loop of [add_progress_bar_metrics] over a list of items with
    distinct keys. *)
Lemma add_progress_bar_metrics_loop (l : list (string * value)) (s : state) :
  NoDup l.*1 ->
  Forall (fun kv => exists v, stored_value item kv.2 = Return v) l ->
  exists pbar : dict,
    for_each l (fun '(k, v) =>
      let* v := match v with
                | Tens t => lift (item t)
                | _ => ret v
                end in
      modify (fun s => set_progress_bar_metrics (<[k := v]> (progress_bar_metrics s)) s)) s
    = (Return tt, set_progress_bar_metrics pbar s) /\
    forall k, pbar !! k
              = match (list_to_map l : dict) !! k with
                | Some v => match stored_value item v with
                            | Return v' => Some v'
                            | Raise _ => None
                            end
                | None => progress_bar_metrics s !! k
                end.
Proof.
  intros Hnodup Hconv. revert s.
  induction Hconv as [| [k0 v0] l [v0' Hv0] _ IH]; intros s.
  { exists (progress_bar_metrics s). split; [by destruct s |]. intros k.
    cbn. by rewrite lookup_empty. }
  apply NoDup_cons in Hnodup as [Hk0 Hnodup].
  cbn [for_each]. unfold bind at 1.
  assert ((let* v := match v0 with
                     | Tens t => lift (item t)
                     | _ => ret v0
                     end in
           modify (fun s => set_progress_bar_metrics
                              (<[k0 := v]> (progress_bar_metrics s)) s)) s
          = (Return tt, set_progress_bar_metrics (<[k0 := v0']> (progress_bar_metrics s)) s))
    as Hstep.
  { cbn in Hv0. unfold bind, lift, ret, modify.
    destruct v0; cbn in Hv0; try (injection Hv0 as <-; reflexivity).
    by rewrite Hv0. }
  rewrite Hstep.
  destruct (IH Hnodup (set_progress_bar_metrics (<[k0 := v0']> (progress_bar_metrics s)) s))
    as (pbar & Hrun & Hpbar).
  exists pbar. split; [rewrite Hrun; by destruct s |].
  intros k. rewrite Hpbar. cbn [list_to_map foldr].
  destruct (decide (k = k0)) as [-> | Hne].
  - rewrite lookup_insert_eq.
    rewrite (not_elem_of_list_to_map_1 (M := gmap string)) by exact Hk0.
    cbn. rewrite lookup_insert_eq. cbn in Hv0. by rewrite Hv0.
  - rewrite lookup_insert_ne by done.
    cbn. by rewrite lookup_insert_ne.
Qed.

(** X6: when [item] succeeds on every tensor among the values,
    [add_progress_bar_metrics] returns; each key of [metrics] then holds
    its value in [progress_bar_metrics], read by [item] when it is a
    tensor, the other keys keep their value, and the rest of the connector
    is unchanged. *)
Theorem add_progress_bar_metrics_merges (metrics : dict) (s : state) :
  (forall k v, metrics !! k = Some v -> exists v', stored_value item v = Return v') ->
  exists pbar : dict,
    add_progress_bar_metrics item metrics s
    = (Return tt, set_progress_bar_metrics pbar s) /\
    forall k, pbar !! k
              = match metrics !! k with
                | Some v => match stored_value item v with
                            | Return v' => Some v'
                            | Raise _ => None
                            end
                | None => progress_bar_metrics s !! k
                end.
Proof.
  intros Hconv.
  destruct (add_progress_bar_metrics_loop (map_to_list metrics) s) as (pbar & Hrun & Hpbar).
  - apply NoDup_fst_map_to_list.
  - apply Forall_forall. intros [k v] Hin. apply elem_of_map_to_list in Hin.
    by apply (Hconv k).
  - exists pbar. split; [exact Hrun |]. intros k.
    by rewrite Hpbar, list_to_map_to_list.
Qed.

(** *** [log_metrics] *)

Local Abbreviation log_metrics_ := (log_metrics metrics_to_scalars get_memory_profile).

Lemma log_metrics_raises (metrics grad_norm_dic : dict) (step : option value) (s : state)
    (e : exn) :
  metrics_to_scalars (merged_metrics get_memory_profile s metrics grad_norm_dic) = Raise e ->
  log_metrics_ metrics grad_norm_dic step s = (Raise e, s).
Proof.
  intros He. unfold log_metrics, bind, get, lift, scalar_metrics_and_step.
  unfold merged_metrics in He. by rewrite He.
Qed.

Lemma scalar_metrics_and_step_returns (metrics grad_norm_dic : dict) (step : option value)
    (s : state) (scalars : dict) :
  metrics_to_scalars (merged_metrics get_memory_profile s metrics grad_norm_dic)
  = Return scalars ->
  scalar_metrics_and_step metrics_to_scalars get_memory_profile s metrics grad_norm_dic step
  = Return (merged_metrics get_memory_profile s metrics grad_norm_dic,
            match step, scalars !! "step" with
            | None, Some _ => delete "step" scalars
            | None, None => <["epoch" := Int (current_epoch s)]> scalars
            | Some _, _ => scalars
            end,
            match step, scalars !! "step" with
            | None, Some v => v
            | None, None => Int (global_step s)
            | Some step, _ => step
            end).
Proof.
  intros Hsc. unfold scalar_metrics_and_step. unfold merged_metrics in *. rewrite Hsc.
  by destruct step, (scalars !! "step").
Qed.

(** X7: [log_metrics] writes to [logged_metrics] and to the backend only:
    [callback_metrics], [progress_bar_metrics], [eval_loop_results] and the
    step metrics are never touched; and when [metrics_to_scalars] raises,
    the exception is passed on and nothing at all has been recorded or
    forwarded. *)
Theorem log_metrics_frame (metrics grad_norm_dic : dict) (step : option value) (s : state) :
  let run := log_metrics_ metrics grad_norm_dic step s in
  callback_metrics (snd run) = callback_metrics s /\
  progress_bar_metrics (snd run) = progress_bar_metrics s /\
  eval_loop_results (snd run) = eval_loop_results s /\
  step_metrics (snd run) = step_metrics s /\
  (forall e, metrics_to_scalars (merged_metrics get_memory_profile s metrics grad_norm_dic)
             = Raise e -> run = (Raise e, s)) /\
  (forall e, fst run = Raise e -> snd run = s).
Proof.
  cbv zeta.
  destruct (metrics_to_scalars (merged_metrics get_memory_profile s metrics grad_norm_dic))
    as [scalars | e] eqn:Hsc.
  - rewrite (log_metrics_run _ _ _ _ _ _ _ _ _
               (scalar_metrics_and_step_returns _ _ step _ _ Hsc)).
    cbn [fst snd].
    repeat split; try discriminate; destruct (has_logger s), (is_global_zero s); done.
  - rewrite (log_metrics_raises _ _ step _ _ Hsc). cbn [fst snd].
    repeat split; congruence.
Qed.

(** X8: how [log_metrics] finds the step, on rank zero of a trainer with a
    logger.  A step that is given is used, and the metrics are forwarded
    as they are.  Without one, a ["step"] entry of the metrics is taken
    out, used as the step, and neither forwarded nor recorded as a metric.
    Without either, the step is [global_step] and an ["epoch"] entry with
    [current_epoch] is written over whatever the metrics had under that
    name.  The backend receives the one call. *)
Theorem log_metrics_step (metrics grad_norm_dic : dict) (step : option value) (s : state)
    (scalars : dict) :
  has_logger s = true ->
  is_global_zero s = true ->
  metrics_to_scalars (merged_metrics get_memory_profile s metrics grad_norm_dic)
  = Return scalars ->
  let s' := snd (log_metrics_ metrics grad_norm_dic step s) in
  exists call,
    backend_calls s' = backend_calls s ++ [call] /\
    logged_metrics s' = update (logged_metrics s) (call_metrics call) /\
    match step, scalars !! "step" with
    | Some given, _ => call = BackendCall scalars given
    | None, Some v =>
        call = BackendCall (delete "step" scalars) v /\
        call_metrics call !! "step" = None /\
        logged_metrics s' !! "step" = logged_metrics s !! "step"
    | None, None =>
        call = BackendCall (<["epoch" := Int (current_epoch s)]> scalars)
                 (Int (global_step s)) /\
        logged_metrics s' !! "epoch" = Some (Int (current_epoch s))
    end.
Proof.
  intros Hl Hz Hsc. cbv zeta.
  rewrite (log_metrics_run _ _ _ _ _ _ _ _ _
             (scalar_metrics_and_step_returns _ _ step _ _ Hsc)).
  rewrite Hl, Hz. cbn [snd]. eexists. split; [reflexivity |]. cbn.
  split; [reflexivity |].
  destruct step as [given |]; [reflexivity |].
  destruct (scalars !! "step") as [v |] eqn:Hstep.
  - split; [reflexivity |]. split; [apply lookup_delete_eq |].
    rewrite update_lookup. by rewrite lookup_delete_eq.
  - split; [reflexivity |]. rewrite update_lookup. by rewrite lookup_insert_eq.
Qed.

(** X9: [log_metrics] updates its argument in place.  When it returns, the
    caller's dictionary holds, for each key, the gradient norm of that
    name if there is one, else the entry of the memory profile when the
    profile is taken (on a GPU with [log_gpu_memory]), else the metric the
    caller had put there. *)
Theorem log_metrics_argument (metrics grad_norm_dic : dict) (step : option value)
    (s : state) (after : dict) :
  fst (log_metrics_ metrics grad_norm_dic step s) = Return after ->
  forall key,
    after !! key
    = match grad_norm_dic !! key with
      | Some v => Some v
      | None =>
          if on_gpu s && log_gpu_memory s then
            match get_memory_profile s !! key with
            | Some v => Some v
            | None => metrics !! key
            end
          else metrics !! key
      end.
Proof.
  intros Hrun key.
  destruct (metrics_to_scalars (merged_metrics get_memory_profile s metrics grad_norm_dic))
    as [scalars | e] eqn:Hsc.
  - rewrite (log_metrics_run _ _ _ _ _ _ _ _ _
               (scalar_metrics_and_step_returns _ _ step _ _ Hsc)) in Hrun.
    injection Hrun as <-. unfold merged_metrics. rewrite update_lookup.
    destruct (grad_norm_dic !! key); [done |].
    destruct (on_gpu s && log_gpu_memory s); [| done]. by rewrite update_lookup.
  - rewrite (log_metrics_raises _ _ step _ _ Hsc) in Hrun. discriminate.
Qed.

(** *** [log_epoch_metrics_on_evaluation_end] *)

Lemma dict_ChainMap_empty (l : list dict) :
  Forall (fun m : dict => m = ∅) l -> dict_ChainMap l = ∅.
Proof.
  induction 1 as [| m l -> _ IH]; cbn; [done |]. rewrite IH. apply (left_id_L ∅ (∪)).
Qed.

Lemma dict_ChainMap_not_empty (l : list dict) :
  Exists (fun m : dict => m <> ∅) l -> dict_ChainMap l <> ∅.
Proof.
  induction 1 as [m l Hm | m l _ IH]; cbn; intros Hempty.
  - apply map_positive_l in Hempty. done.
  - destruct (decide (m = ∅)) as [-> | Hm].
    + rewrite (left_id_L ∅ (∪)) in Hempty. done.
    + apply map_positive_l in Hempty. done.
Qed.

Lemma size_positive (m : dict) : m <> ∅ -> (0 <? size m)%nat = true.
Proof.
  intros Hne. apply Nat.ltb_lt.
  destruct (size m) eqn:Hsize; [| lia]. by apply map_size_empty_inv in Hsize.
Qed.

(** X10: [log_epoch_metrics_on_evaluation_end] logs nothing when the
    dictionaries it is given are all empty (or there is none): the
    connector is unchanged, and no ["epoch"] entry is recorded.  When one
    of them has an entry, the backend of a trainer with a logger receives,
    on rank zero, one call and one [save]. *)
Theorem log_epoch_metrics_on_evaluation_end_logs (metrics_to_log : list dict) (s : state) :
  let run := log_epoch_metrics_on_evaluation_end metrics_to_scalars get_memory_profile
               metrics_to_log s in
  (Forall (fun m : dict => m = ∅) metrics_to_log -> run = (Return tt, s)) /\
  (Exists (fun m : dict => m <> ∅) metrics_to_log ->
   has_logger s = true ->
   is_global_zero s = true ->
   forall scalars,
     metrics_to_scalars (merged_metrics get_memory_profile s (dict_ChainMap metrics_to_log) ∅)
     = Return scalars ->
     fst run = Return tt /\
     length (backend_calls (snd run)) = S (length (backend_calls s)) /\
     backend_saves (snd run) = S (backend_saves s)).
Proof.
  cbv zeta. unfold log_epoch_metrics_on_evaluation_end. split.
  - intros Hempty. by rewrite dict_ChainMap_empty.
  - intros Hsome Hl Hz scalars Hsc.
    rewrite size_positive by (by apply dict_ChainMap_not_empty).
    cbn [when]. unfold bind.
    rewrite (log_metrics_run _ _ _ _ _ _ _ _ _
               (scalar_metrics_and_step_returns _ _ None _ _ Hsc)).
    rewrite Hl, Hz. cbn. split; [done |]. split; [| done].
    rewrite length_app. cbn. lia.
Qed.

(** *** [log_train_step_metrics] *)

Local Abbreviation log_train_step_metrics_ :=
  (log_train_step_metrics metrics_to_scalars get_memory_profile).

(** X11: when [log_train_step_metrics] does nothing.  With
    [log_every_n_steps] zero the remainder raises [ZeroDivisionError],
    also when a stop was requested or in a fast development run.
    Otherwise the method returns and leaves the connector as it was when
    the step is not due (the global step plus one is no multiple of
    [log_every_n_steps], no stop is requested, no fast development run),
    and when the batch has neither log metrics nor gradient norms. *)
Theorem log_train_step_metrics_idle (c : log_schedule) (batch_output : batch_output_t)
    (s : state) :
  (log_every_n_steps c = 0 -> log_train_step_metrics_ c batch_output s = None) /\
  (log_every_n_steps c <> 0 ->
   (global_step s + 1) mod log_every_n_steps c <> 0 ->
   should_stop c = false ->
   fast_dev_run c = false ->
   log_train_step_metrics_ c batch_output s = Some (Return tt, s)) /\
  (log_every_n_steps c <> 0 ->
   default ∅ (batch_log_metrics batch_output) = ∅ ->
   default ∅ (grad_norm_dic batch_output) = ∅ ->
   log_train_step_metrics_ c batch_output s = Some (Return tt, s)).
Proof.
  unfold log_train_step_metrics, should_log_metrics. repeat split.
  - intros ->. done.
  - intros Hn Hmod -> ->.
    rewrite (proj2 (Z.eqb_neq _ _) Hn), (proj2 (Z.eqb_neq _ _) Hmod). done.
  - intros Hn -> ->. rewrite (proj2 (Z.eqb_neq _ _) Hn).
    by destruct (_ || _).
Qed.

(** X12: when the step is due and the batch has log metrics or gradient
    norms, [log_train_step_metrics] logs them and then merges into
    [callback_metrics] the dictionary that [log_metrics] has updated in
    place: the callbacks see the gradient norms, and the memory profile
    when it is taken, beside the batch log metrics. *)
Theorem log_train_step_metrics_callbacks (c : log_schedule) (batch_output : batch_output_t)
    (s : state) (scalars : dict) :
  let metrics := default ∅ (batch_log_metrics batch_output) in
  let grad_norm_dic := default ∅ (grad_norm_dic batch_output) in
  log_every_n_steps c <> 0 ->
  (global_step s + 1) mod log_every_n_steps c = 0
  \/ should_stop c = true \/ fast_dev_run c = true ->
  metrics <> ∅ \/ grad_norm_dic <> ∅ ->
  metrics_to_scalars (merged_metrics get_memory_profile s metrics grad_norm_dic)
  = Return scalars ->
  exists s',
    log_train_step_metrics_ c batch_output s = Some (Return tt, s') /\
    logged_metrics s' = logged_metrics (snd (log_metrics_ metrics grad_norm_dic None s)) /\
    forall key,
      callback_metrics s' !! key
      = match grad_norm_dic !! key with
        | Some v => Some v
        | None =>
            match (if on_gpu s && log_gpu_memory s
                   then get_memory_profile s !! key else None) with
            | Some v => Some v
            | None =>
                match metrics !! key with
                | Some v => Some v
                | None => callback_metrics s !! key
                end
            end
        end.
Proof.
  intros metrics grad Hn Hdue Hsome Hsc.
  unfold log_train_step_metrics, should_log_metrics.
  rewrite (proj2 (Z.eqb_neq _ _) Hn).
  assert ((((global_step s + 1) mod log_every_n_steps c =? 0) || should_stop c)
          || fast_dev_run c = true) as ->.
  { destruct Hdue as [Hmod | [-> | ->]].
    - by rewrite (proj2 (Z.eqb_eq _ _) Hmod).
    - by rewrite orb_true_r.
    - by rewrite orb_true_r. }
  fold metrics. fold grad.
  assert ((0 <? size metrics)%nat || (0 <? size grad)%nat = true) as ->.
  { destruct Hsome as [Hm | Hg].
    - by rewrite size_positive.
    - by rewrite (size_positive grad), orb_true_r. }
  unfold bind.
  pose proof (log_metrics_run _ _ _ _ _ _ _ _ _
                (scalar_metrics_and_step_returns _ _ None _ _ Hsc)) as Hrun.
  rewrite Hrun. eexists. split; [reflexivity |]. cbn [snd].
  split.
  { by destruct (has_logger s), (is_global_zero s). }
  intros key.
  assert (forall s0, callback_metrics s0 = callback_metrics s ->
            callback_metrics
              (set_callback_metrics
                 (update (callback_metrics s0)
                    (merged_metrics get_memory_profile s metrics grad)) s0) !! key
            = match grad !! key with
              | Some v => Some v
              | None =>
                  match (if on_gpu s && log_gpu_memory s
                         then get_memory_profile s !! key else None) with
                  | Some v => Some v
                  | None =>
                      match metrics !! key with
                      | Some v => Some v
                      | None => callback_metrics s !! key
                      end
                  end
              end) as Hkey.
  { intros s0 Hs0. cbn. rewrite update_lookup. unfold merged_metrics.
    rewrite update_lookup. destruct (grad !! key); [done |].
    destruct (on_gpu s && log_gpu_memory s).
    - rewrite update_lookup. destruct (get_memory_profile s !! key); [done |].
      by rewrite Hs0.
    - by rewrite Hs0. }
  destruct (has_logger s), (is_global_zero s); apply Hkey; reflexivity.
Qed.

(** *** [_track_callback_metrics] on evaluation results *)

Local Abbreviation _track_callback_metrics_ :=
  (_track_callback_metrics legacy_dict dict_len flatten_dict).

Lemma track_results_loop (rs : list Result) (s : state) :
  for_each (IResult <$> rs) (fun eval_result : eval_item legacy_dict =>
    let* m := lift (item_callback_metrics legacy_dict eval_result) in
    callback_metrics_update m) s
  = (Return tt, set_callback_metrics (merged_callback_metrics (callback_metrics s) rs) s).
Proof.
  revert s. induction rs as [| r rs IH]; intros s.
  - by destruct s.
  - cbn [fmap list_fmap for_each]. unfold bind at 1. cbn.
    change (list_fmap _ _ IResult rs) with (IResult (legacy_dict := legacy_dict) <$> rs).
    rewrite IH. by destruct s.
Qed.

Lemma merged_callback_metrics_last (cm : dict) (before after : list Result) (r : Result)
    (key : string) (v : value) :
  r_callback_metrics r !! key = Some v ->
  Forall (fun r' => r_callback_metrics r' !! key = None) after ->
  merged_callback_metrics cm (before ++ r :: after) !! key = Some v.
Proof.
  intros Hv Hafter. unfold merged_callback_metrics. rewrite foldl_app. cbn [foldl].
  set (cm' := update _ (r_callback_metrics r)).
  assert (cm' !! key = Some v) as Hcm' by (unfold cm'; by rewrite update_lookup, Hv).
  clearbody cm'. revert cm' Hcm'.
  induction Hafter as [| r' after Hr' _ IH]; intros cm' Hcm'; [done |].
  cbn [foldl]. apply IH. by rewrite update_lookup, Hr'.
Qed.

Lemma merged_callback_metrics_absent (cm : dict) (rs : list Result) (key : string) :
  Forall (fun r => r_callback_metrics r !! key = None) rs ->
  merged_callback_metrics cm rs !! key = cm !! key.
Proof.
  intros Hall. revert cm. unfold merged_callback_metrics.
  induction Hall as [| r rs Hr _ IH]; intros cm; [done |].
  cbn [foldl]. rewrite IH. by rewrite update_lookup, Hr.
Qed.

(** X13: handed a list of structured results as evaluation results,
    [_track_callback_metrics] returns and has merged their callback
    metrics into [callback_metrics] in the order of the list, touching
    nothing else: a metric holds the value of the last result that has it,
    and a metric that no result has keeps its value. *)
Theorem track_callback_metrics_results (rs : list Result) (s : state) :
  let run := _track_callback_metrics_ (EList (IResult <$> rs)) true s in
  run = (Return tt,
         set_callback_metrics (merged_callback_metrics (callback_metrics s) rs) s) /\
  (forall before r after key v,
     rs = before ++ r :: after ->
     r_callback_metrics r !! key = Some v ->
     Forall (fun r' => r_callback_metrics r' !! key = None) after ->
     callback_metrics (snd run) !! key = Some v) /\
  (forall key,
     Forall (fun r => r_callback_metrics r !! key = None) rs ->
     callback_metrics (snd run) !! key = callback_metrics s !! key).
Proof.
  cbv zeta.
  assert (_track_callback_metrics_ (EList (IResult <$> rs)) true s
          = (Return tt,
             set_callback_metrics (merged_callback_metrics (callback_metrics s) rs) s))
    as Hrun.
  { unfold _track_callback_metrics, bind at 1 2. cbn [eval_results_len lift].
    destruct rs as [| r rs].
    - cbn. by destruct s.
    - cbn [fmap list_fmap length Nat.ltb Nat.leb eval_results_first lift bind
           none_or_not_Result ret].
      change (IResult r :: list_fmap _ _ IResult rs)
        with (IResult (legacy_dict := legacy_dict) <$> (r :: rs)).
      cbn -[for_each fmap]. exact (track_results_loop (r :: rs) s). }
  rewrite Hrun. cbn [snd callback_metrics set_callback_metrics].
  split; [done |]. split.
  - intros before r after key v -> Hv Hafter. by apply merged_callback_metrics_last.
  - intros key Hall. by apply merged_callback_metrics_absent.
Qed.

(** *** [_track_callback_metrics_1_0] *)

Local Abbreviation _track_callback_metrics_1_0_ :=
  (_track_callback_metrics_1_0 item reduce_on_epoch_end).

Lemma bind_gets {A B} (g : state -> A) (k : A -> M B) (s : state) :
  bind (gets g) k s = k (g s) s.
Proof. reflexivity. Qed.

Lemma bind_get {B} (k : state -> M B) (s : state) : bind get k s = k s s.
Proof. reflexivity. Qed.

Lemma bind_modify {B} (g : state -> state) (k : unit -> M B) (s : state) :
  bind (modify g) k s = k tt (g s).
Proof. reflexivity. Qed.


Lemma bind_Return_inv {A B} (c : M A) (k : A -> M B) (s s' : state) (b : B) :
  bind c k s = (Return b, s') ->
  exists a s1, c s = (Return a, s1) /\ k a s1 = (Return b, s').
Proof.
  unfold bind. destruct (c s) as [[a | e] s1]; [| discriminate].
  intros Hk. by exists a, s1.
Qed.

Lemma preserves_add_to_eval_loop_results {B} (f : state -> B) (dl_idx : Z) :
  (forall m s, f (set_eval_loop_results m s) = f s) ->
  preserves f (add_to_eval_loop_results dl_idx).
Proof.
  intros Hf. unfold add_to_eval_loop_results.
  do 2 (apply preserves_bind; [preserves_step | intros ?]).
  apply preserves_modify. intros s. apply Hf.
Qed.

Lemma preserves_reduce_dataloaders {B} (f : state -> B) (step_metrics : list (list Result)) :
  (forall m s, f (set_logged_metrics m s) = f s) ->
  (forall m s, f (set_progress_bar_metrics m s) = f s) ->
  (forall m s, f (set_callback_metrics m s) = f s) ->
  (forall m s, f (set_eval_loop_results m s) = f s) ->
  forall dl_idx metrics_to_log,
    preserves f (reduce_dataloaders item reduce_on_epoch_end dl_idx step_metrics
                   metrics_to_log).
Proof.
  intros Hlogged Hpbar Hcallback Heval.
  induction step_metrics as [| dl_metrics rest IH]; intros dl_idx metrics_to_log;
    cbn [reduce_dataloaders]; [apply preserves_ret |].
  destruct (length dl_metrics =? 0)%nat; [apply IH |].
  apply preserves_bind; [preserves_step | intros reduced].
  apply preserves_bind; [apply preserves_modify; intros s; apply Hlogged | intros _].
  apply preserves_bind; [by apply preserves_add_progress_bar_metrics | intros _].
  do 3 (apply preserves_bind; [apply preserves_modify; intros s; apply Hcallback | intros _]).
  apply preserves_bind; [by apply preserves_add_to_eval_loop_results | intros _].
  apply IH.
Qed.

Lemma track_callback_metrics_1_0_after {B} (f : state -> B) (logs : Result)
    (metrics_to_log : list dict) (reduce_on_epoch : bool) (s : state) :
  (forall m s, f (set_logged_metrics m s) = f s) ->
  (forall m s, f (set_progress_bar_metrics m s) = f s) ->
  (forall m s, f (set_callback_metrics m s) = f s) ->
  (forall m s, f (set_eval_loop_results m s) = f s) ->
  f (snd (_track_callback_metrics_1_0_ logs metrics_to_log reduce_on_epoch s))
  = f (set_step_metrics [] s).
Proof.
  intros Hlogged Hpbar Hcallback Heval. unfold _track_callback_metrics_1_0.
  rewrite bind_gets, bind_modify, bind_get.
  destruct (running_sanity_check (set_step_metrics [] s)); [reflexivity |].
  match goal with
  | |- f (snd (?c ?s1)) = f ?s1 => enough (preserves f c) as Hc by apply Hc
  end.
  apply preserves_bind; [apply preserves_modify; intros s1; apply Hlogged | intros _].
  apply preserves_bind; [by apply preserves_add_progress_bar_metrics | intros _].
  do 2 (apply preserves_bind; [apply preserves_modify; intros s1; apply Hcallback | intros _]).
  destruct reduce_on_epoch; [by apply preserves_reduce_dataloaders | apply preserves_ret].
Qed.

(** X14: whatever [_track_callback_metrics_1_0] is called with and however
    it ends, with a value or with an exception of the epoch-end reduction
    or of a metric's conversion, the evaluation loop's step metrics are
    empty afterwards, nothing has been sent to the logger backend, and the
    trainer's flags and counters are as before. *)
Theorem track_callback_metrics_1_0_clears (logs : Result) (metrics_to_log : list dict)
    (reduce_on_epoch : bool) (s : state) :
  let s' := snd (_track_callback_metrics_1_0_ logs metrics_to_log reduce_on_epoch s) in
  step_metrics s' = [] /\
  backend_calls s' = backend_calls s /\
  backend_saves s' = backend_saves s /\
  testing s' = testing s /\
  running_sanity_check s' = running_sanity_check s /\
  current_epoch s' = current_epoch s /\
  global_step s' = global_step s.
Proof.
  cbv zeta.
  repeat split;
    match goal with
    | |- ?f (snd _) = _ =>
        exact (track_callback_metrics_1_0_after f logs metrics_to_log reduce_on_epoch s
                 (fun _ _ => eq_refl) (fun _ _ => eq_refl)
                 (fun _ _ => eq_refl) (fun _ _ => eq_refl))
    end.
Qed.

Lemma add_to_eval_loop_results_returns (dl_idx : Z) (s s' : state) :
  add_to_eval_loop_results dl_idx s = (Return tt, s') ->
  exists snapshot, eval_loop_results s' = eval_loop_results s ++ [snapshot].
Proof.
  unfold add_to_eval_loop_results. rewrite bind_get. intros Hrun.
  apply bind_Return_inv in Hrun as (snapshot & s1 & Hprune & Hrun).
  unfold lift in Hprune. destruct (prune_dataloader_keys _ _ _); [| discriminate].
  injection Hprune as _ <-. injection Hrun as <-. by exists snapshot.
Qed.

Lemma reduce_dataloaders_returns (step_metrics : list (list Result)) :
  forall (dl_idx : Z) (metrics_to_log result : list dict) (s s' : state),
    reduce_dataloaders item reduce_on_epoch_end dl_idx step_metrics metrics_to_log s
    = (Return result, s') ->
    (length (eval_loop_results s')
     = length (eval_loop_results s) + length (reduced_dataloaders step_metrics))%nat /\
    eval_loop_results s `prefix_of` eval_loop_results s' /\
    metrics_to_log `prefix_of` result /\
    (length result <= length metrics_to_log + length (reduced_dataloaders step_metrics))%nat.
Proof.
  induction step_metrics as [| dl_metrics rest IH];
    intros dl_idx metrics_to_log result s s' Hrun.
  - injection Hrun as <- <-. cbn. repeat split; [lia | done | done | lia].
  - cbn [reduce_dataloaders reduced_dataloaders List.filter] in *.
    destruct (length dl_metrics =? 0)%nat; cbn [negb]; [by apply IH in Hrun |].
    apply bind_Return_inv in Hrun as (reduced & s0 & Hreduced & Hrun).
    unfold lift in Hreduced. destruct (reduce_on_epoch_end dl_metrics); [| discriminate].
    injection Hreduced as -> <-.
    unfold logged_metrics_update, callback_metrics_update in Hrun.
    rewrite bind_modify in Hrun.
    apply bind_Return_inv in Hrun as ([] & s1 & Hpbar & Hrun).
    rewrite !bind_modify in Hrun.
    apply bind_Return_inv in Hrun as ([] & s2 & Hsnapshot & Hrun).
    apply IH in Hrun as (Hlen & Hprefix & Hlog & Hresult).
    apply add_to_eval_loop_results_returns in Hsnapshot as [snapshot Hsnapshot].
    cbn [eval_loop_results set_callback_metrics] in Hsnapshot.
    pose proof (preserves_add_progress_bar_metrics eval_loop_results
                  (r_epoch_pbar_metrics reduced) (fun _ _ => eq_refl)
                  (set_logged_metrics
                     (update (logged_metrics s) (r_epoch_log_metrics reduced)) s))
      as Hkeep.
    rewrite Hpbar in Hkeep. cbn [snd eval_loop_results set_logged_metrics] in Hkeep.
    rewrite Hkeep in Hsnapshot. rewrite Hsnapshot in Hlen, Hprefix.
    rewrite length_app in Hlen. unfold reduced_dataloaders in *. cbn [length] in *.
    split; [lia |]. split; [| split].
    + etransitivity; [| exact Hprefix]. by apply prefix_app_r.
    + etransitivity; [| exact Hlog].
      destruct (0 <? size _)%nat; [by apply prefix_app_r | done].
    + destruct (0 <? size _)%nat; [rewrite length_app in Hresult; cbn in Hresult |]; lia.
Qed.

Lemma track_callback_metrics_1_0_returns (logs : Result) (metrics_to_log : list dict)
    (reduce_on_epoch : bool) (s s' : state) (result : list dict) :
  let reduced := if reduce_on_epoch then reduced_dataloaders (step_metrics s) else [] in
  running_sanity_check s = false ->
  _track_callback_metrics_1_0_ logs metrics_to_log reduce_on_epoch s = (Return result, s') ->
  (length (eval_loop_results s') = length (eval_loop_results s) + length reduced)%nat /\
  eval_loop_results s `prefix_of` eval_loop_results s' /\
  metrics_to_log `prefix_of` result /\
  (length result <= length metrics_to_log + 1 + length reduced)%nat.
Proof.
  cbv zeta. unfold _track_callback_metrics_1_0.
  rewrite bind_gets, bind_modify, bind_get.
  change (running_sanity_check (set_step_metrics [] s)) with (running_sanity_check s).
  intros ->. unfold logged_metrics_update, callback_metrics_update.
  rewrite bind_modify. intros Hrun.
  apply bind_Return_inv in Hrun as ([] & s2 & Hpbar & Hrun).
  match type of Hpbar with
  | add_progress_bar_metrics item ?m ?s1 = _ =>
      pose proof (preserves_add_progress_bar_metrics eval_loop_results m
                    (fun _ _ => eq_refl) s1) as Hkeep
  end.
  rewrite Hpbar in Hkeep.
  cbn [snd eval_loop_results set_logged_metrics set_step_metrics] in Hkeep.
  rewrite !bind_modify in Hrun.
  destruct reduce_on_epoch.
  - apply reduce_dataloaders_returns in Hrun as (Hlen & Hprefix & Hlog & Hresult).
    cbn [eval_loop_results set_callback_metrics] in Hlen, Hprefix.
    rewrite Hkeep in Hlen, Hprefix.
    split; [exact Hlen |]. split; [exact Hprefix |]. split.
    + etransitivity; [| exact Hlog].
      destruct (0 <? size _)%nat; [by apply prefix_app_r | done].
    + destruct (0 <? size _)%nat; [rewrite length_app in Hresult; cbn in Hresult |]; lia.
  - injection Hrun as <- <-. cbn [eval_loop_results set_callback_metrics length].
    rewrite Hkeep. split; [lia |]. split; [done |]. split.
    + destruct (0 <? size _)%nat; [by apply prefix_app_r | done].
    + destruct (0 <? size _)%nat; [rewrite length_app; cbn |]; lia.
Qed.

(** X15: a call of [_track_callback_metrics_1_0] outside the sanity check
    that returns has appended to [eval_loop_results] exactly one snapshot
    for each dataloader that has step metrics when it reduces on epoch end,
    and none otherwise; the list of metrics to log it hands on starts with
    the one it was given and has grown by at most the epoch's logger
    metrics and one entry per reduced dataloader. *)
Theorem track_callback_metrics_1_0_snapshots (logs : Result) (metrics_to_log : list dict)
    (reduce_on_epoch : bool) (s : state) (result : list dict) :
  let run := _track_callback_metrics_1_0_ logs metrics_to_log reduce_on_epoch s in
  let reduced := if reduce_on_epoch then reduced_dataloaders (step_metrics s) else [] in
  running_sanity_check s = false ->
  fst run = Return result ->
  (length (eval_loop_results (snd run))
   = length (eval_loop_results s) + length reduced)%nat /\
  eval_loop_results s `prefix_of` eval_loop_results (snd run) /\
  metrics_to_log `prefix_of` result /\
  (length result <= length metrics_to_log + 1 + length reduced)%nat.
Proof.
  cbv zeta. intros Hsanity.
  destruct (_track_callback_metrics_1_0_ logs metrics_to_log reduce_on_epoch s)
    as [r s'] eqn:Hrun.
  cbn [fst snd]. intros ->.
  exact (track_callback_metrics_1_0_returns logs metrics_to_log reduce_on_epoch s s'
           result Hsanity Hrun).
Qed.

(** *** [__process_eval_epoch_end_results_and_log_legacy] *)

Local Abbreviation __process_eval_epoch_end_results_and_log_legacy_ :=
  (__process_eval_epoch_end_results_and_log_legacy legacy_dict dict_len item
     metrics_to_scalars get_memory_profile process_dict_result).







(** *** [add_to_eval_loop_results] on a malformed metric name *)

Lemma prune_dataloader_keys_malformed (dl_idx : Z) (ks : list string) :
  Exists (fun key => malformed key = true) ks ->
  forall d, prune_dataloader_keys dl_idx ks d = Raise ValueError.
Proof.
  unfold malformed.
  induction 1 as [key ks Hkey | key ks _ IH]; intros d; cbn [prune_dataloader_keys].
  - apply andb_true_iff in Hkey as [-> Hint].
    by destruct (Str.int (Str.last (Str.split "_" key))).
  - destruct (Str.contains "/dataloader_idx_" key); [| apply IH].
    destruct (Str.int (Str.last (Str.split "_" key))) as [dl_idx_in_key |]; [| done].
    destruct (negb (dl_idx_in_key =? dl_idx)); apply IH.
Qed.

(** X17: when [callback_metrics] has a metric whose name contains
    ["/dataloader_idx_"] and whose part after the last underscore is made
    of ASCII characters and is no integer for [int] (blanks around it, a
    sign and digits grouped by single underscores are read),
    [add_to_eval_loop_results] raises [ValueError] for every dataloader
    index and leaves the connector as it was: no snapshot is appended,
    also not one of the well-formed metrics. *)
Theorem add_to_eval_loop_results_malformed (dl_idx : Z) (s : state) (key : string)
    (v : value) :
  callback_metrics s !! key = Some v ->
  is_ascii (Str.last (Str.split "_" key)) = true ->
  malformed key = true ->
  add_to_eval_loop_results dl_idx s = (Raise ValueError, s).
Proof.
  intros Hkey _ Hmalformed. unfold add_to_eval_loop_results.
  rewrite bind_get. unfold bind, lift.
  rewrite prune_dataloader_keys_malformed; [done |].
  apply Exists_exists. exists key. split; [| done].
  unfold keys, deepcopy. apply elem_of_map_to_list in Hkey.
  by apply (list_elem_of_fmap_2 fst) in Hkey.
Qed.

(** *** The training epoch end *)

Local Abbreviation __prepare_epoch_end_inputs_ :=
  (__prepare_epoch_end_inputs legacy_dict dict_len).
Local Abbreviation training_epoch_end_ :=
  (training_epoch_end legacy_dict dict_len is_overridden_training_epoch_end
     automatic_optimization model_training_epoch_end).

Lemma extras_of_list_structured (step : list Result) :
  extras_of_list legacy_dict (IResult <$> step)
  = if forallb r_has_extra step then Return (extra_with_loss <$> step)
    else Raise TypeError.
Proof.
  induction step as [| r step IH]; [done |].
  cbn [fmap list_fmap extras_of_list forallb] in *.
  destruct (r_has_extra r); [| done]. cbn [andb]. rewrite IH.
  by destruct (forallb r_has_extra step).
Qed.

Lemma collect_map_if {A B C} (f : B -> outcome C) (g : A -> B) (h : A -> C)
    (p : A -> bool) (e : exn) (l : list A) :
  (forall x, f (g x) = if p x then Return (h x) else Raise e) ->
  collect f (map g l) = if forallb p l then Return (map h l) else Raise e.
Proof.
  intros Hf. induction l as [| x l IH]; [done |].
  cbn [map collect forallb]. rewrite Hf. destruct (p x); [| done].
  cbn [obind andb]. rewrite IH. by destruct (forallb p l).
Qed.

Lemma prepare_epoch_end_inputs_run (epoch : list (list (list Result))) :
  __prepare_epoch_end_inputs_ (structured_epoch_output epoch)
  = if all_have_extra epoch then Return (map (map prepared_of) epoch)
    else Raise TypeError.
Proof.
  unfold __prepare_epoch_end_inputs, structured_epoch_output, all_have_extra.
  apply (collect_map_if _ _ (map prepared_of) (forallb (forallb r_has_extra)) TypeError).
  intros opt_outputs.
  apply (collect_map_if _ _ prepared_of (forallb r_has_extra) TypeError).
  intros step. cbn [extras_of]. rewrite extras_of_list_structured.
  destruct (forallb r_has_extra step); [| done]. unfold prepared_of.
  cbn [obind]. by destruct (extra_with_loss <$> step) as [| d [| d' l]].
Qed.

(** X18: [__prepare_epoch_end_inputs] on an epoch output all of whose
    training steps are lists of structured results.  When every result
    has the key ['extra'] it returns and keeps the shape: one list per
    optimizer, one entry per training step; a step of one result becomes
    the mapping itself, every other step the list of its results'
    mappings.  Each mapping is the result's [extra] with ['loss'] set to
    the result's [minimize], which replaces a value the extra had under
    ['loss']; the other keys are those of the extra.  When some result
    has no ['extra'] it raises [TypeError]. *)
Theorem prepare_epoch_end_inputs_structured (epoch : list (list (list Result))) :
  (all_have_extra epoch = true ->
   __prepare_epoch_end_inputs_ (structured_epoch_output epoch)
   = Return (map (map prepared_of) epoch)) /\
  (all_have_extra epoch = false ->
   __prepare_epoch_end_inputs_ (structured_epoch_output epoch) = Raise TypeError) /\
  (forall r, prepared_of [r] = POne (extra_with_loss r)) /\
  (forall r key,
     extra_with_loss r !! key
     = if decide (key = "loss") then Some (r_minimize r) else r_extra r !! key).
Proof.
  rewrite prepare_epoch_end_inputs_run.
  split; [by intros -> |]. split; [by intros -> |]. split; [done |].
  intros r key. unfold extra_with_loss. destruct (decide (key = "loss")) as [-> | Hne].
  - by rewrite lookup_insert_eq.
  - by rewrite lookup_insert_ne.
Qed.

(** X19: [training_epoch_end] on an epoch output of structured results,
    for a model that overrides the hook.  When some result has no
    ['extra'] the call raises [TypeError] and the hook is not run.  When
    every result has one, the hook is handed the prepared extras: those of
    the first optimizer when there is one optimizer or the optimization is
    manual, those of all optimizers otherwise.  When the hook returns
    [None] the call returns the results the model logged in the hook; when
    it returns anything else the call raises [MisconfigurationException];
    an exception of the hook is passed on. *)
Theorem training_epoch_end_hook (epoch : list (list (list Result))) (num_optimizers : Z) :
  let run := training_epoch_end_ (structured_epoch_output epoch) num_optimizers in
  is_overridden_training_epoch_end = true ->
  (all_have_extra epoch = false -> run = Raise TypeError) /\
  (all_have_extra epoch = true ->
   forall input : hook_input legacy_dict,
     (if (num_optimizers =? 1) || negb automatic_optimization
      then HPreparedFirst legacy_dict <$> head (map (map prepared_of) epoch)
      else Some (HPrepared legacy_dict (map (map prepared_of) epoch))) = Some input ->
     match model_training_epoch_end input with
     | Return (INone, _results) => run = Return _results
     | Return (_, _) => exists message, run = Raise (MisconfigurationException message)
     | Raise e => run = Raise e
     end).
Proof.
  cbv zeta. intros Hover. unfold training_epoch_end.
  rewrite Hover, prepare_epoch_end_inputs_run. cbn [negb].
  split; [by intros -> |]. intros -> input Hinput. cbn [obind].
  destruct ((num_optimizers =? 1) || negb automatic_optimization).
  - destruct (map (map prepared_of) epoch) as [| first rest]; [discriminate |].
    injection Hinput as <-. cbn [index0 obind].
    destruct (model_training_epoch_end _) as [[[] _results] | e]; cbn [obind]; eauto.
  - injection Hinput as <-. cbn [obind].
    destruct (model_training_epoch_end _) as [[[] _results] | e]; cbn [obind]; eauto.
Qed.

(** *** Optimizers without training steps *)

Local Abbreviation __auto_reduce_results_on_epoch_end_ :=
  (__auto_reduce_results_on_epoch_end legacy_dict reduce_on_epoch_end reduce_across_time).
Local Abbreviation __gather_result_across_time_and_optimizers_ :=
  (__gather_result_across_time_and_optimizers legacy_dict gather padded_gather).

Lemma auto_reduce_loop_skips (epoch_output : list (list (eval_results_t legacy_dict))) :
  forall epoch_log_metrics epoch_progress_bar_metrics,
    auto_reduce_loop legacy_dict reduce_on_epoch_end reduce_across_time epoch_output
      epoch_log_metrics epoch_progress_bar_metrics
    = auto_reduce_loop legacy_dict reduce_on_epoch_end reduce_across_time
        (List.filter (fun opt_outputs => negb (length opt_outputs =? 0)%nat) epoch_output)
        epoch_log_metrics epoch_progress_bar_metrics.
Proof.
  induction epoch_output as [| opt_outputs rest IH]; intros log pbar; [done |].
  cbn [List.filter]. destruct opt_outputs as [| step steps].
  - cbn. apply IH.
  - cbn [length Nat.eqb negb auto_reduce_loop].
    destruct (collect _ _) as [reduced | e]; [| done]. cbn [obind].
    destruct (filter _ reduced); [apply IH |].
    destruct (reduce_on_epoch_end _); [| done]. cbn [obind]. apply IH.
Qed.

Lemma collect_app_raises {A B} (f : A -> outcome B) (before after : list A) (x : A)
    (e : exn) :
  f x = Raise e -> exists e', collect f (before ++ x :: after) = Raise e'.
Proof.
  intros Hx. induction before as [| y before [e' IH]]; cbn [app collect].
  - rewrite Hx. by exists e.
  - destruct (f y); cbn [obind]; [rewrite IH |]; eauto.
Qed.

(** X20: an optimizer without training steps.
    [__auto_reduce_results_on_epoch_end] skips it: the epoch output gives
    what it gives with these optimizers removed, and an epoch output
    without any training step gives two empty mappings.
    [__gather_result_across_time_and_optimizers] does not: it raises on
    every epoch output that has such an optimizer, and [IndexError] when
    it is the first one. *)
Theorem epoch_end_optimizer_without_steps
    (epoch_output before after : list (list (eval_results_t legacy_dict))) :
  let has_steps (opt_outputs : list (eval_results_t legacy_dict)) :=
    negb (length opt_outputs =? 0)%nat in
  __auto_reduce_results_on_epoch_end_ epoch_output
  = __auto_reduce_results_on_epoch_end_ (List.filter has_steps epoch_output) /\
  (List.filter has_steps epoch_output = [] ->
   __auto_reduce_results_on_epoch_end_ epoch_output = Return (∅, ∅)) /\
  __gather_result_across_time_and_optimizers_ ([] :: after) = Raise IndexError /\
  exists e, __gather_result_across_time_and_optimizers_ (before ++ [] :: after) = Raise e.
Proof.
  cbv zeta. unfold __auto_reduce_results_on_epoch_end. split; [| split; [| split]].
  - apply auto_reduce_loop_skips.
  - intros Hnone. by rewrite auto_reduce_loop_skips, Hnone.
  - reflexivity.
  - unfold __gather_result_across_time_and_optimizers.
    by apply (collect_app_raises _ before after [] IndexError).
Qed.

(** *** [log_train_epoch_end_metrics] without structured results *)

Local Abbreviation log_train_epoch_end_metrics_ :=
  (log_train_epoch_end_metrics legacy_dict dict_len item metrics_to_scalars
     get_memory_profile process_dict_result cached_metrics_get_as_dict
     reduce_on_epoch_end reduce_across_time gather padded_gather
     is_overridden_training_epoch_end automatic_optimization
     model_training_epoch_end).

(** X21: for a model that does not override [training_epoch_end], and an
    epoch output whose first optimizer has no sample or a sample that is
    not a structured result, [log_train_epoch_end_metrics] returns and
    only merges the values of the two accumulators into
    [callback_metrics]: ['checkpoint_on'] and ['early_stop_on'], each when
    its accumulator has values.  Nothing is logged, and the progress bar
    metrics stay as they were, whatever the other training steps and
    optimizers hold. *)
Theorem log_train_epoch_end_metrics_plain (first : list (eval_results_t legacy_dict))
    (rest : list (list (eval_results_t legacy_dict)))
    (checkpoint_accumulator early_stopping_accumulator : accumulator)
    (num_optimizers : Z) (s : state) :
  is_overridden_training_epoch_end = false ->
  from_option (is_Result legacy_dict) false (first_sample first) = false ->
  log_train_epoch_end_metrics_ (first :: rest) checkpoint_accumulator
    early_stopping_accumulator num_optimizers s
  = (Return tt,
     set_callback_metrics
       (update (callback_metrics s)
          (accumulated_callback_metrics checkpoint_accumulator
             early_stopping_accumulator)) s).
Proof.
  intros Hno Hsample.
  unfold log_train_epoch_end_metrics, __run_legacy_training_epoch_end,
    accumulated_callback_metrics.
  rewrite Hno.
  destruct first as [| [[| [] l] | []] steps]; try discriminate Hsample;
    destruct (0 <? num_values checkpoint_accumulator),
      (0 <? num_values early_stopping_accumulator); reflexivity.
Qed.

End MoreProperties.

(** ** The properties at concrete inputs *)

Lemma add_progress_bar_metrics_merges_witness :
  let s := __init__ false false true false false false true 0 0 false in
  exists pbar : dict,
    add_progress_bar_metrics example_item {[ "loss" := Tens scalar_042 ]} s
    = (Return tt, set_progress_bar_metrics pbar s) /\
    pbar !! "loss" = Some (Num (Qmake 42 100)).
Proof.
  intros s.
  destruct (add_progress_bar_metrics_merges example_item
              {[ "loss" := Tens scalar_042 ]} s) as (pbar & Hrun & Hpbar).
  - intros k v Hk. apply lookup_singleton_Some in Hk as [_ <-]. by eexists.
  - exists pbar. split; [exact Hrun |]. exact (eq_trans (Hpbar "loss") eq_refl).
Defined.

Lemma log_metrics_step_witness :
  let s := __init__ false false true false false false true 3 7 false in
  let s' := snd (log_metrics Return (fun _ => ∅) {[ "loss" := Num (Qmake 1 2) ]} ∅ None s) in
  exists call,
    backend_calls s' = backend_calls s ++ [call] /\
    call = BackendCall (<["epoch" := Int 3]> {[ "loss" := Num (Qmake 1 2) ]}) (Int 7).
Proof.
  intros s s'.
  destruct (log_metrics_step Return (fun _ => ∅) {[ "loss" := Num (Qmake 1 2) ]} ∅ None s
              {[ "loss" := Num (Qmake 1 2) ]} eq_refl eq_refl eq_refl)
    as (call & Hcalls & _ & Hcall & _).
  exists call. split; [exact Hcalls | exact Hcall].
Defined.

Lemma log_metrics_argument_witness :
  let metrics : dict := {[ "loss" := Num (Qmake 1 2) ]} in
  let grad_norm_dic : dict := {[ "grad_2.0_norm_total" := Num (Qmake 3 1) ]} in
  let s := __init__ false false true false false false true 3 7 false in
  let after := update metrics grad_norm_dic in
  fst (log_metrics Return (fun _ => ∅) metrics grad_norm_dic None s) = Return after /\
  after !! "grad_2.0_norm_total" = Some (Num (Qmake 3 1)) /\
  after !! "loss" = Some (Num (Qmake 1 2)).
Proof.
  intros metrics grad_norm_dic s after.
  pose proof (log_metrics_argument Return (fun _ => ∅) metrics grad_norm_dic None s
                after eq_refl) as Hafter.
  split; [reflexivity |]. split.
  - exact (eq_trans (Hafter "grad_2.0_norm_total") eq_refl).
  - exact (eq_trans (Hafter "loss") eq_refl).
Defined.

Lemma log_train_step_metrics_callbacks_witness :
  let c := {| log_every_n_steps := 4; should_stop := false; fast_dev_run := false |} in
  let batch_output :=
    {| batch_log_metrics := Some {[ "loss" := Num (Qmake 1 2) ]}; grad_norm_dic := None |} in
  let s := __init__ false false true false false false true 3 7 false in
  exists s',
    log_train_step_metrics Return (fun _ => ∅) c batch_output s = Some (Return tt, s') /\
    callback_metrics s' !! "loss" = Some (Num (Qmake 1 2)).
Proof.
  intros c batch_output s.
  destruct (log_train_step_metrics_callbacks Return (fun _ => ∅) c batch_output s
              {[ "loss" := Num (Qmake 1 2) ]}) as (s' & Hrun & _ & Hcallback).
  - discriminate.
  - left. reflexivity.
  - left. intros Hempty.
    apply (f_equal (fun m : dict => m !! "loss")) in Hempty. discriminate Hempty.
  - reflexivity.
  - exists s'. split; [exact Hrun |]. exact (eq_trans (Hcallback "loss") eq_refl).
Defined.

Lemma track_callback_metrics_1_0_snapshots_witness :
  let s := set_step_metrics [[example_Result]; []]
             (__init__ false false true false false false true 0 0 false) in
  let run := _track_callback_metrics_1_0 example_item example_reduce_on_epoch_end
               example_Result [] true s in
  length (eval_loop_results (snd run)) = 1%nat.
Proof.
  intros s run.
  destruct (track_callback_metrics_1_0_snapshots example_item example_reduce_on_epoch_end
              example_Result [] true s [] eq_refl eq_refl) as [Hlen _].
  exact Hlen.
Defined.


Lemma add_to_eval_loop_results_malformed_witness :
  let s := set_callback_metrics
             (<["acc/dataloader_idx_x" := Num (Qmake 9 10)]>
                {[ "loss" := Num (Qmake 1 10) ]})
             (__init__ false false true false false false true 0 0 false) in
  let s28 := set_callback_metrics
               {[ "acc/dataloader_idx_" +:+ String (ascii_of_nat 28) "1" := Num (Qmake 9 10) ]}
               (__init__ false false true false false false true 0 0 false) in
  add_to_eval_loop_results 0 s = (Raise ValueError, s) /\
  add_to_eval_loop_results 1 s28 = (Raise ValueError, s28).
Proof.
  intros s s28. split.
  - apply (add_to_eval_loop_results_malformed 0 s "acc/dataloader_idx_x" (Num (Qmake 9 10)));
      vm_compute; reflexivity.
  - apply (add_to_eval_loop_results_malformed 1 s28
             ("acc/dataloader_idx_" +:+ String (ascii_of_nat 28) "1") (Num (Qmake 9 10)));
      vm_compute; reflexivity.
Defined.

Lemma prepare_epoch_end_inputs_structured_witness :
  __prepare_epoch_end_inputs dict size
    (structured_epoch_output [[[example_step_Result]; [example_step_Result; example_step_Result]]])
  = Return [[POne (extra_with_loss example_step_Result);
             PList [extra_with_loss example_step_Result;
                    extra_with_loss example_step_Result]]] /\
  extra_with_loss example_step_Result !! "loss" = Some (Num (Qmake 1 2)) /\
  __prepare_epoch_end_inputs dict size (structured_epoch_output [[[example_Result]]])
  = Raise TypeError.
Proof.
  destruct (prepare_epoch_end_inputs_structured dict size
              [[[example_step_Result]; [example_step_Result; example_step_Result]]])
    as (Hreturns & _ & _ & Hloss).
  destruct (prepare_epoch_end_inputs_structured dict size [[[example_Result]]])
    as (_ & Hraises & _).
  split; [exact (Hreturns eq_refl) |].
  split; [exact (eq_trans (Hloss example_step_Result "loss") eq_refl) |].
  exact (Hraises eq_refl).
Defined.

Lemma training_epoch_end_hook_witness :
  training_epoch_end dict size true true (fun _ => Return (INone, example_Result))
    (structured_epoch_output [[[example_step_Result]]]) 1
  = Return example_Result /\
  training_epoch_end dict size true true (fun _ => Return (INone, example_Result))
    (structured_epoch_output [[[example_Result]]]) 1
  = Raise TypeError.
Proof.
  destruct (training_epoch_end_hook dict size true true
              (fun _ => Return (INone, example_Result)) [[[example_step_Result]]] 1
              eq_refl) as [_ Hhook].
  destruct (training_epoch_end_hook dict size true true
              (fun _ => Return (INone, example_Result)) [[[example_Result]]] 1
              eq_refl) as [Hraises _].
  split; [| exact (Hraises eq_refl)].
  exact (Hhook eq_refl (HPreparedFirst dict [POne (extra_with_loss example_step_Result)])
           eq_refl).
Defined.

Lemma log_train_epoch_end_metrics_plain_witness :
  let s := __init__ false false true false false false true 3 7 false in
  let checkpoint_accumulator := {| num_values := 2; mean := Num (Qmake 1 2) |} in
  let early_stopping_accumulator := {| num_values := 0; mean := NoneVal |} in
  log_train_epoch_end_metrics dict size example_item Return (fun _ => ∅)
    example_process_dict_result cached_metrics_undefined example_reduce_on_epoch_end
    (fun _ => Raise TypeError) (fun _ => Raise TypeError) (fun _ => Raise TypeError)
    false true (fun _ => Raise TypeError)
    [[EItem (IDict {[ "loss" := Num (Qmake 1 2) ]})]]
    checkpoint_accumulator early_stopping_accumulator 1 s
  = (Return tt,
     set_callback_metrics
       (update (callback_metrics s)
          (accumulated_callback_metrics checkpoint_accumulator
             early_stopping_accumulator)) s).
Proof.
  intros s checkpoint_accumulator early_stopping_accumulator.
  apply (log_train_epoch_end_metrics_plain dict size example_item Return (fun _ => ∅)
           example_process_dict_result cached_metrics_undefined
           example_reduce_on_epoch_end (fun _ => Raise TypeError)
           (fun _ => Raise TypeError) (fun _ => Raise TypeError) false true
           (fun _ => Raise TypeError)); reflexivity.
Defined.

(** ** The result caches *)

Lemma results_of_append (result : Result) (dataloader_idx split_idx : option Z)
    (h : HookResults.t) (i : Z) :
  HookResults.results_of (HookResults.append result dataloader_idx split_idx h) i
  = HookResults.results_of h i ++ (if default 0 dataloader_idx =? i then [result] else []).
Proof.
  unfold HookResults.append, HookResults.results_of. cbn [HookResults._internals].
  replace (match dataloader_idx with Some i0 => i0 | None => 0 end)
    with (default 0 dataloader_idx) by by destruct dataloader_idx.
  destruct (Z.eqb_spec (default 0 dataloader_idx) i) as [-> | Hne].
  - by rewrite lookup_insert_eq.
  - rewrite lookup_insert_ne by done. by rewrite app_nil_r.
Qed.

Lemma results_of_append_all (calls : list (Result * option Z * option Z)) :
  forall (h : HookResults.t) (i : Z),
    HookResults.results_of
      (foldl (fun h c => HookResults.append c.1.1 c.1.2 c.2 h) h calls) i
    = HookResults.results_of h i
      ++ ((fun c => c.1.1) <$> List.filter (fun c => default 0 c.1.2 =? i) calls).
Proof.
  induction calls as [| [[result dataloader_idx] split_idx] calls IH]; intros h i.
  - cbn. by rewrite app_nil_r.
  - cbn [foldl List.filter fst snd]. rewrite IH, results_of_append.
    rewrite <- app_assoc. f_equal. by destruct (default 0 dataloader_idx =? i).
Qed.

(** X22: a [HookResults] that has received any sequence of [append] calls
    holds, under each dataloader index, the results appended for that
    index in the order of the calls, a call without a dataloader index
    counting as index 0; the split index of a call makes no difference,
    and an index for which nothing was appended reads as the empty
    list. *)
Theorem hook_results_append_order (current_hook_fx_name : string)
    (calls : list (Result * option Z * option Z)) (i : Z) :
  let h := foldl (fun h c => HookResults.append c.1.1 c.1.2 c.2 h)
             (HookResults.__init__ current_hook_fx_name) calls in
  HookResults.results_of h i
  = (fun c => c.1.1) <$> List.filter (fun c => default 0 c.1.2 =? i) calls /\
  HookResults.results_of h i
  = HookResults.results_of
      (foldl (fun h c => HookResults.append c.1.1 c.1.2 None h)
         (HookResults.__init__ current_hook_fx_name) calls) i.
Proof.
  cbv zeta. rewrite results_of_append_all. split; [done |].
  pose proof (results_of_append_all ((fun c => (c.1.1, c.1.2, None)) <$> calls)
                (HookResults.__init__ current_hook_fx_name) i) as Hnone.
  rewrite foldl_fmap in Hnone. cbn [fst snd] in Hnone. rewrite Hnone. f_equal.
  clear Hnone. induction calls as [| [[result dataloader_idx] split_idx] calls IH];
    [done |].
  cbn. destruct (default 0 dataloader_idx =? i); cbn; [f_equal |]; apply IH.
Qed.

Lemma cached_cache_result (model_ref : LightningModule) (e : EpochLoopResult.t)
    (hook_name : string) (i : Z) :
  EpochLoopResult.cached (EpochLoopResult.cache_result model_ref e) hook_name i
  = EpochLoopResult.cached e hook_name i
    ++ (if String.eqb (_current_hook_fx_name model_ref) hook_name
           && (default 0 (EpochLoopResult._dataloader_idx e) =? i)
        then [_results model_ref] else []).
Proof.
  unfold EpochLoopResult.cached, EpochLoopResult.cache_result.
  cbn [EpochLoopResult._internals].
  destruct (String.eqb_spec (_current_hook_fx_name model_ref) hook_name) as [<- | Hne].
  - rewrite lookup_alter_eq.
    destruct (EpochLoopResult._internals e !! _current_hook_fx_name model_ref)
      as [h |] eqn:Hh.
    + rewrite Hh. cbn [fmap option_fmap option_map andb]. apply results_of_append.
    + rewrite lookup_insert_eq. cbn [fmap option_fmap option_map andb].
      apply results_of_append.
  - rewrite lookup_alter_ne by done. cbn [andb]. rewrite app_nil_r.
    destruct (EpochLoopResult._internals e !! _current_hook_fx_name model_ref); [done |].
    by rewrite lookup_insert_ne.
Qed.

Lemma determine_stage_from_hook_name_stage (hook_name : string) :
  _determine_stage_from_hook_name hook_name ∈ __stages.
Proof.
  unfold _determine_stage_from_hook_name.
  destruct (Str.contains _ hook_name); [str_list |].
  destruct (Str.contains _ hook_name); [str_list |].
  destruct (Str.contains _ hook_name); str_list.
Qed.

Lemma capture_logging_each_run (models : list LightningModule) :
  forall store : gmap string EpochLoopResult.t,
    (forall stage, stage ∈ __stages ->
       exists e, store !! stage = Some e /\ EpochLoopResult._dataloader_idx e = None) ->
    exists store',
      capture_logging_each models store = Return store' /\
      forall stage hook_name i,
        cached_results_of store' stage hook_name i
        = cached_results_of store stage hook_name i
          ++ (if String.eqb stage (_determine_stage_from_hook_name hook_name) && (i =? 0)
              then results_for hook_name models else []).
Proof.
  induction models as [| model_ref models IH]; intros store Hstore.
  - exists store. split; [done |]. intros stage hook_name i.
    destruct (String.eqb _ _ && _); cbn [results_for List.filter fmap list_fmap];
      by rewrite app_nil_r.
  - cbn [capture_logging_each]. unfold capture_logging.
    set (stage_m := _determine_stage_from_hook_name (_current_hook_fx_name model_ref)).
    destruct (Hstore stage_m (determine_stage_from_hook_name_stage _)) as (e & He & Hidx).
    rewrite He. cbn [obind].
    destruct (IH (<[stage_m := EpochLoopResult.cache_result model_ref e]> store))
      as (store' & Hrun & Hcached).
    { intros stage Hstage. destruct (decide (stage = stage_m)) as [-> | Hne].
      - rewrite lookup_insert_eq. eexists. split; [done |]. exact Hidx.
      - rewrite lookup_insert_ne by done. by apply Hstore. }
    exists store'. split; [exact Hrun |]. intros stage hook_name i.
    rewrite Hcached. unfold cached_results_of, results_for.
    cbn [List.filter].
    destruct (decide (stage = stage_m)) as [-> | Hne].
    + rewrite lookup_insert_eq, He, cached_cache_result, Hidx. cbn [default from_option id].
      rewrite <- app_assoc. f_equal. rewrite (Z.eqb_sym 0 i).
      destruct (String.eqb_spec (_current_hook_fx_name model_ref) hook_name) as [<- | Hhook].
      * fold stage_m. rewrite String.eqb_refl. cbn [andb].
        by destruct (i =? 0).
      * cbn [andb app]. done.
    + rewrite lookup_insert_ne by done. f_equal.
      destruct (String.eqb_spec (_current_hook_fx_name model_ref) hook_name) as [<- | Hhook];
        [| done].
      fold stage_m. destruct (String.eqb_spec stage stage_m); [done |]. done.
Qed.

(** X23: starting from the caches as [__init__] builds them, any run of
    [capture_logging] calls returns: the stage found from the hook name is
    always a key.  Afterwards the results of the models whose current hook
    had a given name are cached under that name, in the order of the
    calls, in the cache of the stage the hook name gives, and under
    dataloader index 0, no dataloader index being set on the caches; every
    other stage, hook name and dataloader index has nothing cached. *)
Theorem capture_logging_each_caches (models : list LightningModule) :
  exists store,
    capture_logging_each models _cached_results_init = Return store /\
    forall stage hook_name i,
      cached_results_of store stage hook_name i
      = if String.eqb stage (_determine_stage_from_hook_name hook_name) && (i =? 0)
        then results_for hook_name models else [].
Proof.
  destruct (capture_logging_each_run models _cached_results_init) as (store & Hrun & Hcached).
  { intros stage Hstage. rewrite stages_sorted in Hstage.
    repeat (apply elem_of_cons in Hstage as [-> | Hstage]; [by eexists |]).
    by apply elem_of_nil in Hstage. }
  exists store. split; [exact Hrun |]. intros stage hook_name i.
  rewrite Hcached. unfold cached_results_of.
  destruct (_cached_results_init !! stage) as [e |] eqn:He; [| done].
  enough (EpochLoopResult._internals e = ∅) as Hempty
    by (unfold EpochLoopResult.cached; by rewrite Hempty, lookup_empty).
  unfold _cached_results_init in He. rewrite stages_sorted in He.
  cbn [fmap list_fmap list_to_map foldr uncurry] in He.
  repeat (apply lookup_insert_Some in He as [[_ <-] | [_ He]]; [done |]).
  by rewrite lookup_empty in He.
Qed.
